(** * Maturity and strength development of concrete (concrete.py)

    A shallow embedding of the two classes of [concrete.py], [Concrete2004]
    and [Concrete2023], and the properties of them that the specification
    states.

    Conventions of the embedding.

    - A Python or NumPy float is a real number or one of the IEEE special
      values (type [float] below).  Rounding, overflow and the sign of zero
      are not modelled: a finite result is the exact real result.
    - Python's own float division raises [ZeroDivisionError] on a zero
      divisor, NumPy's returns an infinity or NaN (with a warning); both are
      modelled, and each division of the source uses the one its operand
      types select.
    - A call that raises returns [Raise e]; nothing catches exceptions in
      [concrete.py].
    - A global name is resolved, as Python does, in the namespace of the
      module when the function runs. *)

From Stdlib Require Import Reals Lra List String Bool.
From Stdlib Require Import ZArith Lia.
Import ListNotations.
Open Scope string_scope.
Open Scope list_scope.
Open Scope R_scope.

(** ** Floating-point values *)

Inductive float : Type :=
| Fin (r : R)
| PInf
| NInf
| NaN.

Definition Rltb (a b : R) : bool := if Rlt_dec a b then true else false.
Definition Rleb (a b : R) : bool := if Rle_dec a b then true else false.
Definition Reqb (a b : R) : bool := if Req_dec_T a b then true else false.

(** [x < y] and [x <= y] on floats: every comparison with NaN is false. *)
Definition flt (x y : float) : bool :=
  match x, y with
  | NaN, _ | _, NaN => false
  | Fin a, Fin b => Rltb a b
  | _, NInf => false
  | NInf, _ => true
  | PInf, _ => false
  | Fin _, PInf => true
  end.

Definition fle (x y : float) : bool :=
  match x, y with
  | NaN, _ | _, NaN => false
  | Fin a, Fin b => Rleb a b
  | NInf, _ => true
  | _, NInf => false
  | _, PInf => true
  | PInf, Fin _ => false
  end.

Definition signed_inf (positive : bool) : float :=
  if positive then PInf else NInf.

(** An infinity of the given sign multiplied by the finite [a]. *)
Definition inf_scaled (positive : bool) (a : R) : float :=
  if Rltb 0 a then signed_inf positive
  else if Rltb a 0 then signed_inf (negb positive)
  else NaN.

Definition fopp (x : float) : float :=
  match x with
  | Fin a => Fin (- a)
  | PInf => NInf
  | NInf => PInf
  | NaN => NaN
  end.

Definition fadd (x y : float) : float :=
  match x, y with
  | NaN, _ | _, NaN => NaN
  | Fin a, Fin b => Fin (a + b)
  | PInf, NInf | NInf, PInf => NaN
  | PInf, _ | _, PInf => PInf
  | NInf, _ | _, NInf => NInf
  end.

Definition fsub (x y : float) : float := fadd x (fopp y).

Definition fmul (x y : float) : float :=
  match x, y with
  | NaN, _ | _, NaN => NaN
  | Fin a, Fin b => Fin (a * b)
  | Fin a, PInf | PInf, Fin a => inf_scaled true a
  | Fin a, NInf | NInf, Fin a => inf_scaled false a
  | PInf, PInf | NInf, NInf => PInf
  | PInf, NInf | NInf, PInf => NInf
  end.

(** IEEE division, as NumPy performs it: a zero divisor gives an infinity
    (NaN for [0/0]) and no exception. *)
Definition fdiv (x y : float) : float :=
  match x, y with
  | NaN, _ | _, NaN => NaN
  | Fin a, Fin b => if Reqb b 0 then inf_scaled true a else Fin (a / b)
  | Fin _, _ => Fin 0
  | PInf, Fin b => if Rltb b 0 then NInf else PInf
  | NInf, Fin b => if Rltb b 0 then PInf else NInf
  | _, _ => NaN
  end.

Declare Scope float_scope.
Delimit Scope float_scope with fl.
Bind Scope float_scope with float.
Infix "+" := fadd : float_scope.
Infix "-" := fsub : float_scope.
Infix "*" := fmul : float_scope.
Infix "/" := fdiv : float_scope.
Infix "<?" := flt (at level 70, no associativity) : float_scope.
Infix "<=?" := fle (at level 70, no associativity) : float_scope.

(** ** NumPy's elementwise functions on one float *)

Definition np_sqrt (x : float) : float :=
  match x with
  | Fin a => if Rltb a 0 then NaN else Fin (sqrt a)
  | PInf => PInf
  | NInf | NaN => NaN
  end.

Definition np_exp (x : float) : float :=
  match x with
  | Fin a => Fin (exp a)
  | PInf => PInf
  | NInf => Fin 0
  | NaN => NaN
  end.

Definition np_minimum (x y : float) : float :=
  match x, y with
  | NaN, _ | _, NaN => NaN
  | Fin a, Fin b => Fin (Rmin a b)
  | NInf, _ | _, NInf => NInf
  | PInf, z | z, PInf => z
  end.

Definition np_maximum (x y : float) : float :=
  match x, y with
  | NaN, _ | _, NaN => NaN
  | Fin a, Fin b => Fin (Rmax a b)
  | PInf, _ | _, PInf => PInf
  | NInf, z | z, NInf => z
  end.

(** [x ** y] of NumPy for a positive exponent [y] that is not an integer
    (the source uses 0.3, 1/3 and 0.5): NaN on a negative base. *)
Definition np_power (x : float) (y : R) : float :=
  match x with
  | Fin a =>
      if Rltb 0 a then Fin (Rpower a y)
      else if Reqb a 0 then Fin 0
      else NaN
  | PInf | NInf => PInf
  | NaN => NaN
  end.

(** ** Outcomes of a call *)

Inductive exn : Type :=
| NameError (name : string)
| KeyError (key : string)
| IndexError
| ZeroDivisionError
| ValueError
| TypeError
| PyException (msg : string)
| NotModelled (what : string).

Inductive result (A : Type) : Type :=
| Ok (a : A)
| Raise (e : exn).
Arguments Ok {A} a.
Arguments Raise {A} e.

Definition rbind {A B : Type} (c : result A) (k : A -> result B) : result B :=
  match c with
  | Ok a => k a
  | Raise e => Raise e
  end.

Definition rmap {A B : Type} (f : A -> B) (c : result A) : result B :=
  rbind c (fun a => Ok (f a)).

Notation "'let?' x ':=' c 'in' k" := (rbind c (fun x => k))
  (at level 10, x name, c at level 100, k at level 200).

(** Python's own float division and power.  A negative base with a
    fractional exponent gives a complex number in Python 3, which is outside
    the float values of this model. *)
Definition py_div (x y : float) : result float :=
  match y with
  | Fin b => if Reqb b 0 then Raise ZeroDivisionError else Ok (x / y)%fl
  | _ => Ok (x / y)%fl
  end.

Definition py_pow (x : float) (y : R) : result float :=
  match x with
  | Fin a =>
      if Rltb 0 a then Ok (Fin (Rpower a y))
      else if Reqb a 0 then Ok (Fin 0)
      else Raise (NotModelled "complex result")
  | PInf | NInf => Ok PInf
  | NaN => Ok NaN
  end.

(** ** Scalars and arrays

    An age may be a float or a one-dimensional array (the visualizer assigns
    an array); NumPy applies every operation elementwise. *)

Inductive num : Type :=
| Scalar (x : float)
| Array (xs : list float).

Definition nmap (f : float -> float) (n : num) : num :=
  match n with
  | Scalar x => Scalar (f x)
  | Array xs => Array (map f xs)
  end.

(** Elementwise product of two one-dimensional arrays with NumPy's
    broadcasting: equal lengths, or one operand of length one. *)
Definition np_multiply (xs ys : list float) : result (list float) :=
  match xs, ys with
  | [x], _ => Ok (map (fun y => x * y)%fl ys)
  | _, [y] => Ok (map (fun x => x * y)%fl xs)
  | _, _ =>
      if Nat.eqb (List.length xs) (List.length ys)
      then Ok (map (fun p => fst p * snd p)%fl (combine xs ys))
      else Raise ValueError
  end.

(** The builtins [min], [max] and [sum] over the elements of an array. *)
Definition py_min (xs : list float) : result float :=
  match xs with
  | [] => Raise ValueError
  | x :: r => Ok (fold_left (fun m y => if (y <? m)%fl then y else m) r x)
  end.

Definition py_max (xs : list float) : result float :=
  match xs with
  | [] => Raise ValueError
  | x :: r => Ok (fold_left (fun m y => if (m <? y)%fl then y else m) r x)
  end.

Definition py_sum (xs : list float) : float :=
  fold_left fadd xs (Fin 0).

(** ** Dictionaries of the classes *)

Fixpoint dict_get {V : Type} (d : list (string * V)) (key : string)
  : result V :=
  match d with
  | [] => Raise (KeyError key)
  | (k, v) :: rest => if String.eqb k key then Ok v else dict_get rest key
  end.

Definition list_get {V : Type} (l : list V) (i : nat) : result V :=
  match nth_error l i with
  | Some v => Ok v
  | None => Raise IndexError
  end.

(** ** The namespace of the module

    [concrete.py] executes [import numpy as np] and two class statements,
    so these three names are the globals of every function of the module.
    A name that is neither a local nor a global is looked up among the
    builtins, and raises [NameError] when it is not one. *)

Inductive pyobj : Type :=
| PyFloat (x : float)
| PyUfunc1 (f : float -> float)
| PyUfunc2 (f : float -> float -> float)
| PyModule (name : string)
| PyClass (name : string)
| PyBuiltin (name : string).

Definition namespace : Type := list (string * pyobj).

Definition module_globals : namespace :=
  [ ("np", PyModule "numpy");
    ("Concrete2004", PyClass "Concrete2004");
    ("Concrete2023", PyClass "Concrete2023") ].

(** The builtin functions of Python 3. *)
Definition builtins : list string :=
  [ "abs"; "aiter"; "all"; "anext"; "any"; "ascii"; "bin"; "bool";
    "breakpoint"; "bytearray"; "bytes"; "callable"; "chr"; "classmethod";
    "compile"; "complex"; "delattr"; "dict"; "dir"; "divmod"; "enumerate";
    "eval"; "exec"; "filter"; "float"; "format"; "frozenset"; "getattr";
    "globals"; "hasattr"; "hash"; "help"; "hex"; "id"; "input"; "int";
    "isinstance"; "issubclass"; "iter"; "len"; "list"; "locals"; "map";
    "max"; "memoryview"; "min"; "next"; "object"; "oct"; "open"; "ord";
    "pow"; "print"; "property"; "range"; "repr"; "reversed"; "round";
    "set"; "setattr"; "slice"; "sorted"; "staticmethod"; "str"; "sum";
    "super"; "tuple"; "type"; "vars"; "zip"; "Exception" ].

Fixpoint lookup (g : namespace) (name : string) : option pyobj :=
  match g with
  | [] => None
  | (k, v) :: rest => if String.eqb k name then Some v else lookup rest name
  end.

Definition load_global (g : namespace) (name : string) : result pyobj :=
  match lookup g name with
  | Some o => Ok o
  | None =>
      if existsb (String.eqb name) builtins then Ok (PyBuiltin name)
      else Raise (NameError name)
  end.

(** Calling a global with one or with two floats.  A ufunc applies itself;
    a float or a module is not callable, and a ufunc or a class of this
    module given the wrong number of arguments raises [TypeError]. *)
Definition call1 (o : pyobj) (a : float) : result float :=
  match o with
  | PyUfunc1 f => Ok (f a)
  | PyBuiltin _ => Raise (NotModelled "call of a builtin")
  | _ => Raise TypeError
  end.

Definition call2 (o : pyobj) (a b : float) : result float :=
  match o with
  | PyUfunc2 f => Ok (f a b)
  | PyClass _ => Raise (NotModelled "instance as a number")
  | PyBuiltin _ => Raise (NotModelled "call of a builtin")
  | _ => Raise TypeError
  end.

(** A global used as a number. *)
Definition as_float (o : pyobj) : result float :=
  match o with
  | PyFloat x => Ok x
  | _ => Raise TypeError
  end.

(** The namespace the module would have after
    [from numpy import minimum, exp]. *)
Definition with_numpy_names (g : namespace) : namespace :=
  ("minimum", PyUfunc2 np_minimum) :: ("exp", PyUfunc1 np_exp) :: g.

(** ** Methods that read an object

    A property getter receives the object and may fail; it is a function
    from the object to an outcome and the object afterwards. *)

Definition M (S A : Type) : Type := S -> result A * S.

Definition ret {S A : Type} (a : A) : M S A := fun s => (Ok a, s).

Definition bind {S A B : Type} (c : M S A) (k : A -> M S B) : M S B :=
  fun s =>
    match c s with
    | (Ok a, s') => k a s'
    | (Raise e, s') => (Raise e, s')
    end.

Definition attr {S A : Type} (field : S -> A) : M S A :=
  fun s => (Ok (field s), s).

Definition lift {S A : Type} (c : result A) : M S A := fun s => (c, s).

Definition value_of {S A : Type} (c : M S A) (s : S) : result A := fst (c s).
Definition state_after {S A : Type} (c : M S A) (s : S) : S := snd (c s).

Notation "x <- c ;; k" := (bind c (fun x => k))
  (at level 61, c at next level, right associativity).

Definition temperature_error : exn :=
  PyException "The temperature should be between 0 and 80 degrees C".

(** ** class Concrete2004 *)

Module Concrete2004.

Definition F_CK_DICT : list (string * float) :=
  [ ("C12/15", Fin 12); ("C16/20", Fin 16); ("C20/25", Fin 20);
    ("C25/30", Fin 25); ("C30/37", Fin 30); ("C35/45", Fin 35);
    ("C40/50", Fin 40); ("C45/55", Fin 45); ("C50/60", Fin 50);
    ("C55/67", Fin 55); ("C60/75", Fin 60); ("C70/85", Fin 70);
    ("C80/95", Fin 80); ("C90/105", Fin 90) ].

Definition S_DICT : list (string * float) :=
  [ ("S", Fin 0.38); ("N", Fin 0.25); ("R", Fin 0.20) ].

Record obj : Type := init {
  strength_class : string;
  cement_class : string;
  curing_temperature : float
}.

Definition get_fcm (f_ck : float) : float := (f_ck + Fin 8)%fl.

(** [22e3*(f_cm/10)**0.3] *)
Definition get_Ecm (f_cm : float) : result float :=
  let? p := py_pow (f_cm / Fin 10)%fl 0.3 in
  Ok (Fin 22000 * p)%fl.

Definition get_fcm_t (beta_cc_t f_cm : float) : float :=
  (beta_cc_t * f_cm)%fl.

(** [beta_cc_t**(0.3)*E_cm]; the coefficient is the value of a NumPy
    exponential, so the power is NumPy's. *)
Definition get_Ecm_t (beta_cc_t E_cm : float) : float :=
  (np_power beta_cc_t 0.3 * E_cm)%fl.

Definition get_fck_t (f_cm_t : float) : float := (f_cm_t - Fin 8)%fl.

Section Globals.

(** The globals of the module at the time of the call. *)
Variable g : namespace.

(** [t = minimum(t, 28.0); return exp(s*(1.0-(28.0/t)**0.5))]: the names
    [minimum] and [exp] are written without the [np.] prefix. *)
Definition get_betacc_t (s t : float) : result float :=
  let? minimum := load_global g "minimum" in
  let? t := call2 minimum t (Fin 28) in
  let? exp_ := load_global g "exp" in
  call1 exp_ (s * (Fin 1 - np_power (Fin 28 / t) 0.5))%fl.

(** The function is declared without [@staticmethod] and without [self];
    it is modelled as called through the class, [dt] and [T_dt] being
    arrays.  The activation-energy correction reads the name [T], which is
    neither a parameter nor a local of the function. *)
Definition get_t_T (dt T_dt : list float)
    (use_linear_activation_energy : bool) : result float :=
  let? lowest := py_min T_dt in
  let? out_of_range :=
    if (lowest <=? Fin 0)%fl then Ok true
    else let? highest := py_max T_dt in Ok (Fin 80 <? highest)%fl in
  if (out_of_range : bool) then Raise temperature_error
  else
    let R_gas := Fin 8.314 in
    let E := Fin 33500 in
    let? E :=
      if use_linear_activation_energy
      then
        let? T := load_global g "T" in
        let? T := as_float T in
        Ok (E + Fin 1470 * np_maximum (Fin 20 - T) (Fin 0))%fl
      else Ok E in
    let? terms :=
      np_multiply dt
        (map (fun T_i =>
                np_exp (E / R_gas
                        * (Fin 1 / Fin 293 - Fin 1 / (Fin 273 + T_i)))%fl)
             T_dt) in
    Ok (py_sum terms).

(** [return self.S_C_DICT[cement_class]] in a static method: [self] is not
    a parameter, and the class has [S_DICT], not [S_C_DICT]. *)
Definition get_s (cement_class : string) : result float :=
  let? self := load_global g "self" in
  Raise (NotModelled "attribute S_C_DICT of a global self").

Definition f_ck : M obj float :=
  c <- attr strength_class ;; lift (dict_get F_CK_DICT c).

Definition f_cm : M obj float :=
  x <- f_ck ;; ret (get_fcm x).

(** [return self.get_Ecm(self.f_ck)] *)
Definition E_cm : M obj float :=
  x <- f_ck ;; lift (get_Ecm x).

Definition s : M obj float :=
  c <- attr cement_class ;; lift (get_s c).

End Globals.

End Concrete2004.

(** ** class Concrete2023 *)

Module Concrete2023.

Definition F_CK_DICT : list (string * float) :=
  [ ("C12/15", Fin 12); ("C16/20", Fin 16); ("C20/25", Fin 20);
    ("C25/30", Fin 25); ("C30/37", Fin 30); ("C35/45", Fin 35);
    ("C40/50", Fin 40); ("C45/55", Fin 45); ("C50/60", Fin 50);
    ("C55/67", Fin 55); ("C60/75", Fin 60); ("C70/85", Fin 70);
    ("C80/95", Fin 80); ("C90/105", Fin 90); ("C100/115", Fin 100) ].

Definition S_C_DICT : list (string * list float) :=
  [ ("CS", [Fin 0.6; Fin 0.5; Fin 0.4]);
    ("CN", [Fin 0.5; Fin 0.4; Fin 0.3]);
    ("CR", [Fin 0.3; Fin 0.2; Fin 0.1]) ].

(** The instance attributes set by [__init__]; the age may be an array. *)
Record obj : Type := init {
  strength_class : string;
  strength_development_class : string;
  t_ref : float;
  age : num;
  curing_temperature : float
}.

(** [__init__] called with the two classes only: [t_ref=28.0], [age=28.0],
    [curing_temperature=20.0]. *)
Definition init_defaults (strength_class strength_development_class : string)
  : obj :=
  init strength_class strength_development_class
       (Fin 28) (Scalar (Fin 28)) (Fin 20).

Definition get_fcm (f_ck : float) : float := (f_ck + Fin 8)%fl.

Definition k_E_default : float := Fin 9500.

(** [k_E*f_cm**(1/3)] *)
Definition get_Ecm (f_cm k_E : float) : result float :=
  let? p := py_pow f_cm (1 / 3) in
  Ok (k_E * p)%fl.

Definition get_fcm_t (beta_cc_t : num) (f_cm : float) : num :=
  nmap (fun b => b * f_cm)%fl beta_cc_t.

(** [beta_cc_t**(1/3)*E_cm]; the coefficient is the value of [np.exp], so
    the power is NumPy's. *)
Definition get_Ecm_t (beta_cc_t : num) (E_cm : float) : num :=
  nmap (fun b => np_power b (1 / 3) * E_cm)%fl beta_cc_t.

Definition get_fck_t (f_cm_t : num) : num :=
  nmap (fun x => x - Fin 8)%fl f_cm_t.

(** [t = np.minimum(t, t_ref)];
    [np.exp(s_C*(1.0-np.sqrt(t_ref/t))*np.sqrt(28.0/t_ref))].
    [t] is a NumPy value after the first line, so [t_ref/t] is NumPy's
    division; [28.0/t_ref] divides two Python floats. *)
Definition get_betacc_t (s_C : float) (t : num) (t_ref : float)
  : result num :=
  let t := nmap (fun x => np_minimum x t_ref) t in
  let? q := py_div (Fin 28) t_ref in
  Ok (nmap (fun x =>
              np_exp (s_C * (Fin 1 - np_sqrt (t_ref / x)) * np_sqrt q)%fl)
           t).

Definition get_t_T (t : num) (T : float)
    (use_linear_activation_energy : bool) : result num :=
  if negb ((Fin 0 <? T)%fl && (T <=? Fin 80)%fl)
  then Raise temperature_error
  else
    let R_gas := Fin 8.314 in
    let E := Fin 33500 in
    let E :=
      if use_linear_activation_energy
      then (E + Fin 1470 * np_maximum (Fin 20 - T) (Fin 0))%fl
      else E in
    let? d := py_div (Fin 1) (Fin 273 + T)%fl in
    Ok (nmap (fun x => x * np_exp (E / R_gas * (Fin 1 / Fin 293 - d)))%fl t).

Definition get_sC (f_ck : float) (strength_development_class : string)
  : result float :=
  if (f_ck <=? Fin 35)%fl then
    let? row := dict_get S_C_DICT strength_development_class in
    list_get row 0
  else if (f_ck <? Fin 60)%fl then
    let? row := dict_get S_C_DICT strength_development_class in
    list_get row 1
  else
    let? row := dict_get S_C_DICT strength_development_class in
    list_get row 2.

(** *** Properties *)

Definition f_ck : M obj float :=
  c <- attr strength_class ;; lift (dict_get F_CK_DICT c).

Definition f_cm : M obj float :=
  x <- f_ck ;; ret (get_fcm x).

(** [return self.get_Ecm(self.f_ck)] *)
Definition E_cm : M obj float :=
  x <- f_ck ;; lift (get_Ecm x k_E_default).

Definition s_C : M obj float :=
  x <- f_ck ;;
  c <- attr strength_development_class ;;
  lift (get_sC x c).

Definition t_T : M obj num :=
  a <- attr age ;;
  T <- attr curing_temperature ;;
  lift (get_t_T a T true).

Definition beta_cc_t : M obj num :=
  sc <- s_C ;;
  t <- t_T ;;
  r <- attr t_ref ;;
  lift (get_betacc_t sc t r).

Definition f_cm_t : M obj num :=
  b <- beta_cc_t ;;
  m <- f_cm ;;
  ret (get_fcm_t b m).

Definition E_cm_t : M obj num :=
  b <- beta_cc_t ;;
  e <- E_cm ;;
  ret (get_Ecm_t b e).

Definition f_ck_t : M obj num :=
  x <- f_cm_t ;; ret (get_fck_t x).

End Concrete2023.

(** *** Assignments to the inputs and reads of the properties

    The visualizer assigns the inputs of one object and reads its
    properties again and again.  An action is one assignment or one read;
    a read is the getter run on the object, which returns the value and the
    object as the getter leaves it. *)

Module Session.
Import Concrete2023.

Inductive assignment : Type :=
| Set_strength_class (v : string)
| Set_strength_development_class (v : string)
| Set_t_ref (v : float)
| Set_age (v : num)
| Set_curing_temperature (v : float).

Definition assign (a : assignment) (o : obj) : obj :=
  match a with
  | Set_strength_class v =>
      init v (strength_development_class o) (t_ref o) (age o)
           (curing_temperature o)
  | Set_strength_development_class v =>
      init (strength_class o) v (t_ref o) (age o) (curing_temperature o)
  | Set_t_ref v =>
      init (strength_class o) (strength_development_class o) v (age o)
           (curing_temperature o)
  | Set_age v =>
      init (strength_class o) (strength_development_class o) (t_ref o) v
           (curing_temperature o)
  | Set_curing_temperature v =>
      init (strength_class o) (strength_development_class o) (t_ref o)
           (age o) v
  end.

Inductive property : Type :=
| P_f_ck | P_f_cm | P_E_cm | P_s_C | P_beta_cc_t
| P_f_cm_t | P_E_cm_t | P_f_ck_t | P_t_T.

Definition scalar (c : M obj float) : M obj num :=
  x <- c ;; ret (Scalar x).

Definition read (p : property) : M obj num :=
  match p with
  | P_f_ck => scalar f_ck
  | P_f_cm => scalar f_cm
  | P_E_cm => scalar E_cm
  | P_s_C => scalar s_C
  | P_beta_cc_t => beta_cc_t
  | P_f_cm_t => f_cm_t
  | P_E_cm_t => E_cm_t
  | P_f_ck_t => f_ck_t
  | P_t_T => t_T
  end.

Inductive action : Type :=
| Assign (a : assignment)
| Read (p : property).

(** The object after a history of actions, and the values its reads gave. *)
Fixpoint run (history : list action) (o : obj) : obj * list (result num) :=
  match history with
  | [] => (o, [])
  | Assign a :: rest => run rest (assign a o)
  | Read p :: rest =>
      let (v, o') := read p o in
      let (final, values) := run rest o' in
      (final, v :: values)
  end.

(** The assignments of a history, in order, without its reads. *)
Fixpoint assignments (history : list action) : list assignment :=
  match history with
  | [] => []
  | Assign a :: rest => a :: assignments rest
  | Read _ :: rest => assignments rest
  end.

Definition assign_all (l : list assignment) (o : obj) : obj :=
  fold_left (fun o a => assign a o) l o.

End Session.

(** ** The aging coefficient as the specification words it

    Used only to compare the source with the 2004 form of the
    specification, [exp(s * (1 - sqrt(28/t')))] with [t' = min(t, 28)]. *)
Definition beta_cc_2004_form (s t : R) : R :=
  exp (s * (1 - sqrt (28 / Rmin t 28))).

(** ** The maturity rate in closed form

    The activation energy and the Arrhenius factor of [get_t_T] at a finite
    temperature, over the reals. *)
Definition activation_energy (linear : bool) (T : R) : R :=
  if linear then 33500 + 1470 * Rmax (20 - T) 0 else 33500.

Definition maturity_rate (linear : bool) (T : R) : R :=
  exp (activation_energy linear T / 8.314 * (1 / 293 - 1 / (273 + T))).

Definition Rsum (l : list R) : R := fold_left Rplus l 0.

(** A getter that leaves the object as it found it. *)
Definition reads_only {S A : Type} (c : M S A) : Prop :=
  forall s : S, state_after c s = s.

(** The keys of a dictionary, in insertion order ([d.keys()]). *)
Definition keys {V : Type} (d : list (string * V)) : list string :=
  map fst d.

(** Two values of the same shape: both scalars, or arrays of one length. *)
Definition same_shape (a b : num) : Prop :=
  match a, b with
  | Scalar _, Scalar _ => True
  | Array xs, Array ys => List.length xs = List.length ys
  | _, _ => False
  end.

(** ** Calls of the constructors with keyword arguments

    A constructor binds its positional arguments to its first parameters and
    its keyword arguments to the parameters of those names; a keyword that
    names no parameter, or one already bound, and a parameter left without a
    value and without a default raise [TypeError]. *)

Inductive pyarg : Type :=
| AStr (s : string)
| AFloat (x : float).

Definition parameters : Type := list (string * option pyarg).

Fixpoint bind_positional (params : parameters) (args : list pyarg)
  : result (list (string * pyarg) * parameters) :=
  match args, params with
  | [], _ => Ok ([], params)
  | _ :: _, [] => Raise TypeError
  | a :: args', (name, _) :: params' =>
      let? r := bind_positional params' args' in
      Ok ((name, a) :: fst r, snd r)
  end.

Fixpoint find_keyword (keywords : list (string * pyarg)) (name : string)
  : option pyarg :=
  match keywords with
  | [] => None
  | (k, v) :: rest =>
      if String.eqb k name then Some v else find_keyword rest name
  end.

Fixpoint bind_remaining (rest : parameters) (keywords : list (string * pyarg))
  : result (list (string * pyarg)) :=
  match rest with
  | [] => Ok []
  | (name, default) :: rest' =>
      let? v :=
        match find_keyword keywords name, default with
        | Some v, _ => Ok v
        | None, Some d => Ok d
        | None, None => Raise TypeError
        end in
      let? r := bind_remaining rest' keywords in
      Ok ((name, v) :: r)
  end.

Definition bind_arguments (params : parameters) (args : list pyarg)
    (keywords : list (string * pyarg)) : result (list (string * pyarg)) :=
  let? r := bind_positional params args in
  if forallb (fun kw => existsb (String.eqb (fst kw)) (keys (snd r))) keywords
  then let? named := bind_remaining (snd r) keywords in Ok (fst r ++ named)
  else Raise TypeError.

(** The parameters of the two [__init__] methods after [self]. *)
Definition Concrete2004_parameters : parameters :=
  [ ("strength_class", None); ("cement_class", None);
    ("curing_temperature", Some (AFloat (Fin 20))) ].

Definition Concrete2023_parameters : parameters :=
  [ ("strength_class", None); ("strength_development_class", None);
    ("t_ref", Some (AFloat (Fin 28))); ("age", Some (AFloat (Fin 28)));
    ("curing_temperature", Some (AFloat (Fin 20))) ].

(** The object [__init__] builds from the bound arguments, when the classes
    are strings and the other arguments floats. *)
Definition Concrete2004_new (args : list pyarg)
    (keywords : list (string * pyarg)) : result Concrete2004.obj :=
  let? b := bind_arguments Concrete2004_parameters args keywords in
  match find_keyword b "strength_class", find_keyword b "cement_class",
        find_keyword b "curing_temperature" with
  | Some (AStr c), Some (AStr d), Some (AFloat T) =>
      Ok (Concrete2004.init c d T)
  | _, _, _ => Raise (NotModelled "attribute of another type")
  end.

Definition Concrete2023_new (args : list pyarg)
    (keywords : list (string * pyarg)) : result Concrete2023.obj :=
  let? b := bind_arguments Concrete2023_parameters args keywords in
  match find_keyword b "strength_class",
        find_keyword b "strength_development_class",
        find_keyword b "t_ref", find_keyword b "age",
        find_keyword b "curing_temperature" with
  | Some (AStr c), Some (AStr d), Some (AFloat r), Some (AFloat a),
    Some (AFloat T) =>
      Ok (Concrete2023.init c d r (Scalar a) T)
  | _, _, _, _, _ => Raise (NotModelled "attribute of another type")
  end.

(** ** class CuringTimeVisualizer (curing_time_visualizer.py)

    The computations of the visualizer; the calls that draw and the widgets
    are left out.  A slider passes an integer, here a real number. *)

Module CuringTimeVisualizer.

Definition default_strength_class : string := "C30/37".
Definition default_strength_development_class : string := "CN".
Definition default_age : float := Fin 28.
Definition default_curing_temperature : float := Fin 20.

(** The arguments [__init__] passes to [concrete_class]. *)
Definition init_args : list pyarg :=
  [ AStr default_strength_class; AStr default_strength_development_class ].

Definition init_keywords : list (string * pyarg) :=
  [ ("age", AFloat default_age);
    ("curing_temperature", AFloat default_curing_temperature) ].

(** The initial values of the two dropdowns: [list(keys)[4]] and
    [list(keys)[1]]. *)
Definition strength_dropdown_value : result string :=
  list_get (keys Concrete2023.F_CK_DICT) 4.

Definition strength_development_dropdown_value : result string :=
  list_get (keys Concrete2023.S_C_DICT) 1.

(** [a // b] of two finite floats, as an integer. *)
Definition floor_divide (a b : R) : Z := Int_part (a / b).

(** [np.linspace(start, stop, num)]: [num] evenly spaced samples, the last
    one [stop]; a negative [num] raises [ValueError]. *)
Definition np_linspace (start stop : R) (num : Z) : result (list R) :=
  if (num <? 0)%Z then Raise ValueError
  else Ok (map (fun i => start + INR i * ((stop - start) / (IZR num - 1)))
               (seq 0 (Z.to_nat num))).

Fixpoint first_true (l : list bool) : option nat :=
  match l with
  | [] => None
  | true :: _ => Some 0%nat
  | false :: rest => option_map S (first_true rest)
  end.

(** [np.argmax] of an array of booleans: the first [True], 0 when there is
    none, [ValueError] on an empty array. *)
Definition np_argmax (l : list bool) : result nat :=
  match l with
  | [] => Raise ValueError
  | _ => Ok (match first_true l with Some i => i | None => 0%nat end)
  end.

(** [a[i]] for a non-negative index. *)
Definition index (a : num) (i : nat) : result float :=
  match a with
  | Scalar _ => Raise IndexError
  | Array xs => list_get xs i
  end.

(** What [plot_curves] computes before it draws. *)
Record curves : Type := mk_curves {
  n_samples : Z * Z;
  t_list : list R;
  idx : nat;
  strength_axis : float;
  modulus_axis : float;
  curve_E_cm_t : num;
  curve_f_ck_t : num;
  marker_age : float;
  marker_f_ck_t : float;
  marker_E_cm_t : float
}.

(** The four assignments to [self.concrete]; the reference age stays. *)
Definition assign_inputs (strength_class strength_development_class : string)
    (age : num) (curing_temperature : float) : M Concrete2023.obj unit :=
  fun o =>
    (Ok tt,
     Concrete2023.init strength_class strength_development_class
                       (Concrete2023.t_ref o) age curing_temperature).

Definition plot_curves (strength_class strength_development_class : string)
    (t T : R) : M Concrete2023.obj curves :=
  (* t_min = t_T_min*np.exp(4000/(273+T)-13.65) *)
  if Reqb (273 + T) 0 then lift (Raise ZeroDivisionError)
  else
    let t_T_min := 3 in
    let t_min := t_T_min * exp (4000 / (273 + T) - 13.65) in
    let dt := 28 / 100 in
    let n0 := (floor_divide t_min dt + 1)%Z in
    let n1 := (floor_divide (28 - t_min) dt + 1)%Z in
    first <- lift (np_linspace 0.01 t_min n0) ;;
    second <- lift (np_linspace t_min 28 n1) ;;
    let t_list := first ++ second in
    idx <- lift (np_argmax (map (fun x => Rleb t x) t_list)) ;;
    assigned <- assign_inputs strength_class strength_development_class
                  (Array (map Fin t_list)) (Fin T) ;;
    f_ck <- Concrete2023.f_ck ;;
    f_ck_again <- Concrete2023.f_ck ;;
    E_cm <- Concrete2023.E_cm ;;
    E_cm_t <- Concrete2023.E_cm_t ;;
    f_ck_t <- Concrete2023.f_ck_t ;;
    marker_t <- lift (list_get (map Fin t_list) idx) ;;
    marker_f <- lift (index f_ck_t idx) ;;
    marker_E <- lift (index E_cm_t idx) ;;
    ret (mk_curves (n0, n1) t_list idx f_ck E_cm E_cm_t f_ck_t
                   marker_t marker_f marker_E).

End CuringTimeVisualizer.

(** * Properties *)

(** ** Comparisons and arithmetic of finite floats *)

Lemma Rltb_true (a b : R) : a < b -> Rltb a b = true.
Proof. intros H; unfold Rltb; destruct (Rlt_dec a b); [reflexivity | contradiction]. Qed.

Lemma Rltb_false (a b : R) : b <= a -> Rltb a b = false.
Proof. intros H; unfold Rltb; destruct (Rlt_dec a b); [lra | reflexivity]. Qed.

Lemma Rleb_true (a b : R) : a <= b -> Rleb a b = true.
Proof. intros H; unfold Rleb; destruct (Rle_dec a b); [reflexivity | contradiction]. Qed.

Lemma Rleb_false (a b : R) : b < a -> Rleb a b = false.
Proof. intros H; unfold Rleb; destruct (Rle_dec a b); [lra | reflexivity]. Qed.

Lemma Reqb_true (a b : R) : a = b -> Reqb a b = true.
Proof. intros H; unfold Reqb; destruct (Req_dec_T a b); [reflexivity | contradiction]. Qed.

Lemma Reqb_false (a b : R) : a <> b -> Reqb a b = false.
Proof. intros H; unfold Reqb; destruct (Req_dec_T a b); [contradiction | reflexivity]. Qed.

Lemma fdiv_fin (a b : R) : b <> 0 -> (Fin a / Fin b)%fl = Fin (a / b).
Proof. intros H; simpl; now rewrite Reqb_false. Qed.

Lemma py_div_fin (a b : R) : b <> 0 -> py_div (Fin a) (Fin b) = Ok (Fin (a / b)).
Proof. intros H; unfold py_div; rewrite Reqb_false by assumption; now rewrite fdiv_fin. Qed.

Lemma py_pow_pos (a y : R) : 0 < a -> py_pow (Fin a) y = Ok (Fin (Rpower a y)).
Proof. intros H; unfold py_pow; now rewrite Rltb_true. Qed.

Lemma fmul_one_r (x : float) : (x * Fin 1)%fl = x.
Proof.
  destruct x; simpl; unfold inf_scaled; try rewrite Rltb_true by lra;
    try reflexivity.
  now rewrite Rmult_1_r.
Qed.

Lemma np_power_half (x : float) : x <> NInf -> np_power x 0.5 = np_sqrt x.
Proof.
  destruct x as [a| | |]; simpl; try congruence; intros _.
  destruct (Rlt_dec 0 a) as [Hpos|Hnpos].
  - rewrite Rltb_true, Rltb_false by lra.
    replace 0.5 with (/ 2) by lra. now rewrite Rpower_sqrt.
  - rewrite Rltb_false by lra.
    destruct (Req_dec_T a 0) as [->|Hne].
    + rewrite Reqb_true, Rltb_false by lra. now rewrite sqrt_0.
    + rewrite Reqb_false, Rltb_true by lra. reflexivity.
Qed.

(** Cube roots between rational bounds. *)
Lemma Rpower_cube_root (b : R) : 0 < b -> Rpower (b * b * b) (1 / 3) = b.
Proof.
  intros Hb.
  replace (b * b * b) with (b ^ 3) by ring.
  rewrite <- (Rpower_pow 3 b Hb), Rpower_mult.
  replace (INR 3 * (1 / 3)) with 1 by (simpl; lra).
  now apply Rpower_1.
Qed.

Lemma cube_root_lt (x b : R) :
  0 < x -> 0 < b -> x < b * b * b -> Rpower x (1 / 3) < b.
Proof.
  intros Hx Hb H.
  rewrite <- (Rpower_cube_root b Hb) at 1.
  apply Rlt_Rpower_l; lra.
Qed.

Lemma cube_root_gt (x a : R) :
  0 < a -> a * a * a < x -> a < Rpower x (1 / 3).
Proof.
  intros Ha H.
  rewrite <- (Rpower_cube_root a Ha) at 1.
  assert (0 < a * a) by (apply Rmult_lt_0_compat; assumption).
  assert (0 < a * a * a) by (apply Rmult_lt_0_compat; assumption).
  apply Rlt_Rpower_l; lra.
Qed.

(** ** Modulus of elasticity at the reference age *)

(** Both [E_cm] getters pass the characteristic strength to [get_Ecm]. *)
Lemma E_cm_2023_reads_f_ck (o : Concrete2023.obj) :
  value_of Concrete2023.E_cm o =
  let? x := value_of Concrete2023.f_ck o in
  Concrete2023.get_Ecm x Concrete2023.k_E_default.
Proof.
  unfold value_of, Concrete2023.E_cm, Concrete2023.f_ck, bind, attr, lift.
  now destruct (dict_get Concrete2023.F_CK_DICT (Concrete2023.strength_class o)).
Qed.

Lemma E_cm_2004_reads_f_ck (o : Concrete2004.obj) :
  value_of Concrete2004.E_cm o =
  let? x := value_of Concrete2004.f_ck o in Concrete2004.get_Ecm x.
Proof.
  unfold value_of, Concrete2004.E_cm, Concrete2004.f_ck, bind, attr, lift.
  now destruct (dict_get Concrete2004.F_CK_DICT (Concrete2004.strength_class o)).
Qed.

Lemma modulus_2023_at_30 : 29518 < 9500 * Rpower 30 (1 / 3) < 29520.
Proof.
  assert (H1 := cube_root_gt 30 3.1072 ltac:(lra) ltac:(lra)).
  assert (H2 := cube_root_lt 30 3.1073 ltac:(lra) ltac:(lra) ltac:(lra)).
  lra.
Qed.

Lemma modulus_2023_at_38 : 31938 < 9500 * Rpower 38 (1 / 3) < 31940.
Proof.
  assert (H1 := cube_root_gt 38 3.3619 ltac:(lra) ltac:(lra)).
  assert (H2 := cube_root_lt 38 3.3620 ltac:(lra) ltac:(lra) ltac:(lra)).
  lra.
Qed.

(** C1.  The claim puts the modulus at [k_E * f_cm^(1/3)] (2023) and
    [22000 * (f_cm/10)^0.3] (2004) with [f_cm = f_ck + 8].  The getters
    evaluate [get_Ecm] at [f_ck] instead: for class C30/37 the 2023 object
    reports [9500 * 30^(1/3)], below 29520 MPa, where the formula at
    [f_cm = 38] gives more than 31938 MPa; the 2004 object reports
    [22000 * (30/10)^0.3], less than the value at [38/10]. *)
Theorem C1_modulus_is_evaluated_at_f_ck :
  value_of Concrete2023.E_cm (Concrete2023.init_defaults "C30/37" "CN")
    = Ok (Fin (9500 * Rpower 30 (1 / 3)))
  /\ 9500 * Rpower 30 (1 / 3) < 29520
  /\ Concrete2023.get_Ecm (Fin 38) Concrete2023.k_E_default
       = Ok (Fin (9500 * Rpower 38 (1 / 3)))
  /\ 31938 < 9500 * Rpower 38 (1 / 3)
  /\ value_of Concrete2004.E_cm (Concrete2004.init "C30/37" "N" (Fin 20))
       = Ok (Fin (22000 * Rpower (30 / 10) 0.3))
  /\ 22000 * Rpower (30 / 10) 0.3 < 22000 * Rpower (38 / 10) 0.3.
Proof.
  repeat split.
  - rewrite E_cm_2023_reads_f_ck. unfold value_of; simpl.
    unfold Concrete2023.get_Ecm. now rewrite py_pow_pos by lra.
  - apply modulus_2023_at_30.
  - unfold Concrete2023.get_Ecm. now rewrite py_pow_pos by lra.
  - apply modulus_2023_at_38.
  - rewrite E_cm_2004_reads_f_ck. unfold value_of; simpl.
    unfold Concrete2004.get_Ecm. rewrite fdiv_fin by lra.
    now rewrite py_pow_pos by lra.
  - apply Rmult_lt_compat_l; [lra | apply Rlt_Rpower_l; lra].
Qed.

(** ** Age-adjusted characteristic strength *)

(** C2.  The age-adjusted characteristic strength is the age-adjusted mean
    strength minus 8.0: [get_fck_t] subtracts 8.0 in both classes, and the
    2023 property [f_ck_t] is the property [f_cm_t] minus 8.0, elementwise
    when the age is an array, raising what [f_cm_t] raises. *)
Theorem C2_characteristic_is_mean_minus_8 :
  (forall f_cm_t : float,
     Concrete2004.get_fck_t f_cm_t = (f_cm_t - Fin 8)%fl)
  /\ (forall f_cm_t : float,
        Concrete2023.get_fck_t (Scalar f_cm_t) = Scalar (f_cm_t - Fin 8)%fl)
  /\ (forall f_cm_t : list float,
        Concrete2023.get_fck_t (Array f_cm_t)
        = Array (map (fun x => x - Fin 8)%fl f_cm_t))
  /\ (forall o : Concrete2023.obj,
        value_of Concrete2023.f_ck_t o
        = rmap Concrete2023.get_fck_t (value_of Concrete2023.f_cm_t o)).
Proof.
  repeat split.
  intros o. unfold value_of, Concrete2023.f_ck_t, bind, ret, rmap, rbind.
  destruct (Concrete2023.f_cm_t o) as [[v|e] o']; reflexivity.
Qed.

(** ** The aging coefficient *)

Lemma np_sqrt_nonneg (a : R) : 0 <= a -> np_sqrt (Fin a) = Fin (sqrt a).
Proof. intros H; simpl; now rewrite Rltb_false. Qed.

Lemma np_sqrt_neg (a : R) : a < 0 -> np_sqrt (Fin a) = NaN.
Proof. intros H; simpl; now rewrite Rltb_true. Qed.

Lemma Rdiv_pos (a b : R) : 0 < a -> 0 < b -> 0 < a / b.
Proof.
  intros Ha Hb.
  apply Rmult_lt_0_compat; [assumption | now apply Rinv_0_lt_compat].
Qed.

Lemma Rmin_pos (a b : R) : 0 < a -> 0 < b -> 0 < Rmin a b.
Proof. intros Ha Hb. now apply Rmin_glb_lt. Qed.

(** The 2023 coefficient at a positive age and a positive reference age. *)
Lemma betacc_2023_positive (s t r : R) :
  0 < t -> 0 < r ->
  Concrete2023.get_betacc_t (Fin s) (Scalar (Fin t)) (Fin r)
  = Ok (Scalar (Fin (exp (s * (1 - sqrt (r / Rmin t r)) * sqrt (28 / r))))).
Proof.
  intros Ht Hr.
  assert (Hm : 0 < Rmin t r) by now apply Rmin_pos.
  assert (Hq : 0 < r / Rmin t r) by now apply Rdiv_pos.
  assert (Hp : 0 < 28 / r) by (apply Rdiv_pos; lra).
  unfold Concrete2023.get_betacc_t.
  rewrite py_div_fin by lra. cbn [rbind nmap np_minimum].
  rewrite fdiv_fin by lra.
  rewrite !np_sqrt_nonneg by lra.
  reflexivity.
Qed.

Lemma betacc_2023_at_reference (s r : R) :
  0 < r ->
  Concrete2023.get_betacc_t (Fin s) (Scalar (Fin r)) (Fin r)
  = Ok (Scalar (Fin 1)).
Proof.
  intros Hr. rewrite betacc_2023_positive by assumption.
  rewrite Rmin_left by lra.
  replace (r / r) with 1 by (field; lra).
  rewrite sqrt_1.
  replace (s * (1 - 1) * sqrt (28 / r)) with 0 by ring.
  now rewrite exp_0.
Qed.

(** A negative age is not rejected: the square root of the negative
    quotient is NaN, and NaN is what the function returns. *)
Lemma betacc_2023_negative_age (s t r : R) :
  t < 0 -> 0 < r ->
  Concrete2023.get_betacc_t (Fin s) (Scalar (Fin t)) (Fin r)
  = Ok (Scalar NaN).
Proof.
  intros Ht Hr.
  unfold Concrete2023.get_betacc_t.
  rewrite py_div_fin by lra. cbn [rbind nmap np_minimum].
  rewrite Rmin_left by lra.
  rewrite fdiv_fin by lra.
  rewrite np_sqrt_neg; [reflexivity|].
  unfold Rdiv. assert (/ t < 0) by now apply Rinv_lt_0_compat. nra.
Qed.

(** The only exception of the 2023 coefficient is the division by a zero
    reference age. *)
Lemma betacc_2023_no_exception (s : float) (t : num) (r : R) :
  r <> 0 ->
  exists v, Concrete2023.get_betacc_t s t (Fin r) = Ok v.
Proof.
  intros Hr. unfold Concrete2023.get_betacc_t.
  rewrite py_div_fin by assumption. cbn [rbind]. eauto.
Qed.

Lemma betacc_2023_at_28 (s t : R) :
  0 < t ->
  Concrete2023.get_betacc_t (Fin s) (Scalar (Fin t)) (Fin 28)
  = Ok (Scalar (Fin (beta_cc_2004_form s t))).
Proof.
  intros Ht. rewrite betacc_2023_positive by lra.
  unfold beta_cc_2004_form.
  replace (28 / 28) with 1 by lra. rewrite sqrt_1.
  now rewrite Rmult_1_r.
Qed.

(** In the module as it is, [minimum] is not bound. *)
Lemma betacc_2004_unbound (s t : float) :
  Concrete2004.get_betacc_t module_globals s t = Raise (NameError "minimum").
Proof. reflexivity. Qed.

(** With [minimum] and [exp] bound to NumPy's functions the body of the 2004
    function computes the 2004 form. *)
Lemma betacc_2004_with_numpy_names (g : namespace) (s t : R) :
  0 < t ->
  Concrete2004.get_betacc_t (with_numpy_names g) (Fin s) (Fin t)
  = Ok (Fin (beta_cc_2004_form s t)).
Proof.
  intros Ht.
  assert (Hm : 0 < Rmin t 28) by (apply Rmin_pos; lra).
  assert (Hq : 0 < 28 / Rmin t 28) by (apply Rdiv_pos; lra).
  unfold Concrete2004.get_betacc_t, with_numpy_names, load_global.
  cbn [lookup String.eqb Ascii.eqb Bool.eqb rbind call2 call1 np_minimum].
  rewrite fdiv_fin by lra.
  rewrite np_power_half by discriminate.
  rewrite np_sqrt_nonneg by lra.
  reflexivity.
Qed.

Lemma beta_cc_2004_form_at_28 (s : R) : beta_cc_2004_form s 28 = 1.
Proof.
  unfold beta_cc_2004_form. rewrite Rmin_left by lra.
  replace (28 / 28) with 1 by lra. rewrite sqrt_1.
  replace (s * (1 - 1)) with 0 by ring. apply exp_0.
Qed.

Lemma beta_cc_2004_form_at_7 : beta_cc_2004_form 0.25 7 = exp (- 0.25).
Proof.
  unfold beta_cc_2004_form. rewrite Rmin_left by lra.
  replace (28 / 7) with (2 * 2) by lra. rewrite sqrt_square by lra.
  f_equal. lra.
Qed.

(** At the reference age the 2023 functions give back [f_ck]. *)
Lemma round_trip_2023 (s r x : R) :
  0 < r ->
  rmap (fun b => Concrete2023.get_fck_t
                   (Concrete2023.get_fcm_t b (Concrete2023.get_fcm (Fin x))))
       (Concrete2023.get_betacc_t (Fin s) (Scalar (Fin r)) (Fin r))
  = Ok (Scalar (Fin x)).
Proof.
  intros Hr. rewrite betacc_2023_at_reference by assumption.
  cbn. do 3 f_equal. ring.
Qed.

(** C3.  At an age equal to the reference age the claim expects the
    coefficient 1.0 from both classes.  [Concrete2004.get_betacc_t] calls
    [minimum] and [exp] without the [np.] prefix, so in the module as it is
    the call at [s = 0.25], [t = 28.0] raises [NameError], as every call
    does; [Concrete2023.get_betacc_t] at the same input returns 1.0 and the
    round trip through [get_fcm_t] and [get_fck_t] gives back
    [f_ck = 30.0]. *)
Theorem C3_2004_coefficient_raises_NameError :
  Concrete2004.get_betacc_t module_globals (Fin 0.25) (Fin 28)
    = Raise (NameError "minimum")
  /\ (forall s t : float,
        Concrete2004.get_betacc_t module_globals s t
        = Raise (NameError "minimum"))
  /\ Concrete2023.get_betacc_t (Fin 0.25) (Scalar (Fin 28)) (Fin 28)
     = Ok (Scalar (Fin 1))
  /\ rmap (fun b => Concrete2023.get_fck_t
                      (Concrete2023.get_fcm_t b
                         (Concrete2023.get_fcm (Fin 30))))
          (Concrete2023.get_betacc_t (Fin 0.25) (Scalar (Fin 28)) (Fin 28))
     = Ok (Scalar (Fin 30)).
Proof.
  split; [reflexivity|].
  split; [intros s t; apply betacc_2004_unbound|].
  split; [apply betacc_2023_at_reference; lra | apply round_trip_2023; lra].
Qed.

(** C5, as the code has it.  The 2023 coefficient has no check of the age.
    For a positive reference age it raises nothing at any age; at a positive
    age it returns the finite value
    [exp(s * (1 - sqrt(t_ref/min(t, t_ref))) * sqrt(28/t_ref))], and at a
    negative age it returns NaN. *)
Theorem C5_coefficient_without_age_check (s t r : R) :
  0 < r ->
  (0 < t ->
   Concrete2023.get_betacc_t (Fin s) (Scalar (Fin t)) (Fin r)
   = Ok (Scalar (Fin (exp (s * (1 - sqrt (r / Rmin t r)) * sqrt (28 / r))))))
  /\ (t < 0 ->
      Concrete2023.get_betacc_t (Fin s) (Scalar (Fin t)) (Fin r)
      = Ok (Scalar NaN))
  /\ (exists v,
        Concrete2023.get_betacc_t (Fin s) (Scalar (Fin t)) (Fin r) = Ok v).
Proof.
  intros Hr. split; [|split].
  - intros Ht. now apply betacc_2023_positive.
  - intros Ht. now apply betacc_2023_negative_age.
  - apply betacc_2023_no_exception. lra.
Qed.

Lemma C5_coefficient_without_age_check_witness :
  Concrete2023.get_betacc_t (Fin 0.25) (Scalar (Fin 7)) (Fin 28)
  = Ok (Scalar (Fin (exp (0.25 * (1 - sqrt (28 / Rmin 7 28))
                          * sqrt (28 / 28))))).
Proof.
  apply (C5_coefficient_without_age_check 0.25 7 28); lra.
Defined.

(** C5, as the claim states it, fails: at the age -1 (with [s = 0.25] and
    the reference age 28) the 2023 coefficient is NaN, returned as a value;
    at the age 0 it is 0. *)
Lemma C5_non_positive_age_is_not_rejected :
  Concrete2023.get_betacc_t (Fin 0.25) (Scalar (Fin (-1))) (Fin 28)
    = Ok (Scalar NaN)
  /\ Concrete2023.get_betacc_t (Fin 0.25) (Scalar (Fin 0)) (Fin 28)
     = Ok (Scalar (Fin 0)).
Proof.
  split; [apply betacc_2023_negative_age; lra|].
  unfold Concrete2023.get_betacc_t.
  rewrite py_div_fin by lra. cbn [rbind nmap np_minimum].
  rewrite Rmin_left by lra.
  replace (28 / 28) with 1 by lra.
  rewrite np_sqrt_nonneg, sqrt_1 by lra.
  cbn [fdiv]. rewrite Reqb_true by reflexivity.
  unfold inf_scaled. rewrite Rltb_true by lra.
  cbn [signed_inf np_sqrt fsub fopp fadd fmul].
  unfold inf_scaled. rewrite Rltb_true by lra.
  cbn [signed_inf negb fmul].
  unfold inf_scaled. rewrite Rltb_true by lra.
  reflexivity.
Qed.

(** Rational bounds of [exp(-0.25)], by repeated squaring from
    [1 - h < exp(-h) < 1/(1 + h)] at [h = 1/65536]. *)
Lemma exp_double_lower (x l l' : R) :
  0 < l -> l < exp x -> l' <= l * l -> l' < exp (2 * x).
Proof.
  intros Hl Hx Hl'. replace (2 * x) with (x + x) by ring. rewrite exp_plus.
  assert (l * l < exp x * exp x) by (apply Rmult_le_0_lt_compat; lra).
  lra.
Qed.

Lemma exp_double_upper (x u u' : R) :
  exp x < u -> u * u <= u' -> exp (2 * x) < u'.
Proof.
  intros Hx Hu'. replace (2 * x) with (x + x) by ring. rewrite exp_plus.
  pose proof (exp_pos x) as Hpos.
  assert (exp x * exp x < u * u) by (apply Rmult_le_0_lt_compat; lra).
  lra.
Qed.

Lemma exp_minus_small_lower (h : R) : 0 < h -> 1 - h < exp (- h).
Proof. intros Hh. pose proof (exp_ineq1 (- h) ltac:(lra)). lra. Qed.

Lemma exp_minus_small_upper (h u : R) :
  0 < h -> 1 <= u * (1 + h) -> exp (- h) < u.
Proof.
  intros Hh Hu. pose proof (exp_ineq1 h ltac:(lra)) as H1.
  pose proof (exp_pos (- h)) as Hpos.
  assert (Hprod : exp (- h) * exp h = 1).
  { rewrite <- exp_plus. replace (- h + h) with 0 by ring. apply exp_0. }
  assert (0 < u) by nra.
  nra.
Qed.

Lemma exp_minus_quarter_bounds : 0.77879 < exp (- 0.25) < 0.77881.
Proof.
  assert (L0 : 0.999984741210 < exp (- (1 / 65536)))
    by (pose proof (exp_minus_small_lower (1 / 65536) ltac:(lra)); lra).
  assert (U0 : exp (- (1 / 65536)) < 0.999984741444)
    by (apply exp_minus_small_upper; lra).
  apply (exp_double_lower _ _ 0.999969482652) in L0; [|lra|lra]. rename L0 into L1.
  apply (exp_double_upper _ _ 0.999969483121) in U0; [|lra]. rename U0 into U1.
  apply (exp_double_lower _ _ 0.999938966235) in L1; [|lra|lra]. rename L1 into L2.
  apply (exp_double_upper _ _ 0.999938967174) in U1; [|lra]. rename U1 into U2.
  apply (exp_double_lower _ _ 0.999877936195) in L2; [|lra|lra]. rename L2 into L3.
  apply (exp_double_upper _ _ 0.999877938074) in U2; [|lra]. rename U2 into U3.
  apply (exp_double_lower _ _ 0.999755887289) in L3; [|lra|lra]. rename L3 into L4.
  apply (exp_double_upper _ _ 0.999755891048) in U3; [|lra]. rename U3 into U4.
  apply (exp_double_lower _ _ 0.999511834169) in L4; [|lra|lra]. rename L4 into L5.
  apply (exp_double_upper _ _ 0.999511841686) in U4; [|lra]. rename U4 into U5.
  apply (exp_double_lower _ _ 0.999023906643) in L5; [|lra|lra]. rename L5 into L6.
  apply (exp_double_upper _ _ 0.999023921671) in U5; [|lra]. rename U5 into U6.
  apply (exp_double_lower _ _ 0.998048766044) in L6; [|lra|lra]. rename L6 into L7.
  apply (exp_double_upper _ _ 0.998048796071) in U6; [|lra]. rename U6 into U7.
  apply (exp_double_lower _ _ 0.996101339401) in L7; [|lra|lra]. rename L7 into L8.
  apply (exp_double_upper _ _ 0.996101399339) in U7; [|lra]. rename U7 into U8.
  apply (exp_double_lower _ _ 0.992217878356) in L8; [|lra|lra]. rename L8 into L9.
  apply (exp_double_upper _ _ 0.992217997766) in U8; [|lra]. rename U8 into U9.
  apply (exp_double_lower _ _ 0.984496318129) in L9; [|lra|lra]. rename L9 into L10.
  apply (exp_double_upper _ _ 0.984496555091) in U9; [|lra]. rename U9 into U10.
  apply (exp_double_lower _ _ 0.969233000409) in L10; [|lra|lra]. rename L10 into L11.
  apply (exp_double_upper _ _ 0.969233466987) in U10; [|lra]. rename U10 into U11.
  apply (exp_double_lower _ _ 0.939412609081) in L11; [|lra|lra]. rename L11 into L12.
  apply (exp_double_upper _ _ 0.939413513528) in U11; [|lra]. rename U11 into U12.
  apply (exp_double_lower _ _ 0.882496050100) in L12; [|lra|lra]. rename L12 into L13.
  apply (exp_double_upper _ _ 0.882497749400) in U12; [|lra]. rename U12 into U13.
  apply (exp_double_lower _ _ 0.778799278442) in L13; [|lra|lra]. rename L13 into L14.
  apply (exp_double_upper _ _ 0.778802277697) in U13; [|lra]. rename U13 into U14.
  replace (2 * (2 * (2 * (2 * (2 * (2 * (2 * (2 * (2 * (2 * (2 * (2 * (2 * (2 * (- (1 / 65536)))))))))))))))) with (- 0.25) in L14, U14 by lra.
  lra.
Qed.

(** C7.  The table [S_DICT] gives 0.25 for cement class N, and the 2004
    form at [s = 0.25] and 7 days is [exp(-0.25)], about 0.7788, which with
    [f_cm = 38] gives about 29.6 and, less 8, about 21.6.  The code does not
    reach these values: [get_s] reads [self.S_C_DICT] in a static method,
    where [self] is not bound, and [get_betacc_t] calls the unbound
    [minimum]; both raise [NameError]. *)
Theorem C7_2004_scenario_raises_NameError :
  dict_get Concrete2004.S_DICT "N" = Ok (Fin 0.25)
  /\ beta_cc_2004_form 0.25 7 = exp (- 0.25)
  /\ 0.77879 < beta_cc_2004_form 0.25 7 < 0.77881
  /\ 29.59 < beta_cc_2004_form 0.25 7 * 38 < 29.60
  /\ 21.59 < beta_cc_2004_form 0.25 7 * 38 - 8 < 21.60
  /\ Concrete2004.get_s module_globals "N" = Raise (NameError "self")
  /\ value_of (Concrete2004.s module_globals)
              (Concrete2004.init "C30/37" "N" (Fin 20))
     = Raise (NameError "self")
  /\ Concrete2004.get_betacc_t module_globals (Fin 0.25) (Fin 7)
     = Raise (NameError "minimum").
Proof.
  pose proof exp_minus_quarter_bounds as Hb.
  rewrite <- beta_cc_2004_form_at_7 in Hb.
  split; [reflexivity|].
  split; [apply beta_cc_2004_form_at_7|].
  split; [lra|]. split; [lra|]. split; [lra|].
  repeat split; reflexivity.
Qed.

(** C8.  For every [s] and every positive age [t], the 2023 coefficient
    with [t_ref = 28] is the 2004 form of the specification,
    [exp(s * (1 - sqrt(28/min(t, 28))))], and so is the body of the 2004
    function once [minimum] and [exp] denote NumPy's functions. *)
Theorem C8_coefficient_2023_at_28_is_2004_form (s t : R) :
  0 < t ->
  Concrete2023.get_betacc_t (Fin s) (Scalar (Fin t)) (Fin 28)
    = Ok (Scalar (Fin (beta_cc_2004_form s t)))
  /\ Concrete2004.get_betacc_t (with_numpy_names module_globals)
                               (Fin s) (Fin t)
     = Ok (Fin (beta_cc_2004_form s t)).
Proof.
  intros Ht. split.
  - now apply betacc_2023_at_28.
  - now apply betacc_2004_with_numpy_names.
Qed.

Lemma C8_coefficient_2023_at_28_is_2004_form_witness :
  Concrete2023.get_betacc_t (Fin 0.25) (Scalar (Fin 7)) (Fin 28)
    = Ok (Scalar (Fin (beta_cc_2004_form 0.25 7)))
  /\ Concrete2004.get_betacc_t (with_numpy_names module_globals)
                               (Fin 0.25) (Fin 7)
     = Ok (Fin (beta_cc_2004_form 0.25 7)).
Proof.
  apply (C8_coefficient_2023_at_28_is_2004_form 0.25 7); lra.
Defined.

(** ** The temperature-adjusted age *)

Lemma nmap_ext (f h : float -> float) (n : num) :
  (forall x, f x = h x) -> nmap f n = nmap h n.
Proof.
  intros H. destruct n as [x|xs]; simpl; [now rewrite H|].
  f_equal. now apply map_ext.
Qed.

Lemma nmap_id (n : num) : nmap (fun x => x) n = n.
Proof. destruct n as [x|xs]; simpl; [reflexivity | now rewrite map_id]. Qed.

Lemma get_t_T_2023_out_of_range (t : num) (T : float) (b : bool) :
  ((Fin 0 <? T) && (T <=? Fin 80))%fl = false ->
  Concrete2023.get_t_T t T b = Raise temperature_error.
Proof. intros H. unfold Concrete2023.get_t_T. now rewrite H. Qed.

(** Inside the range the age is multiplied by the maturity rate. *)
Lemma get_t_T_2023_in_range (t : num) (T : R) (b : bool) :
  0 < T <= 80 ->
  Concrete2023.get_t_T t (Fin T) b
  = Ok (nmap (fun x => x * Fin (maturity_rate b T))%fl t).
Proof.
  intros [H0 H80].
  unfold Concrete2023.get_t_T.
  cbn [flt fle]. rewrite Rltb_true, Rleb_true by lra. cbn [andb negb].
  cbn [fadd]. rewrite py_div_fin by lra. cbn [rbind].
  f_equal. apply nmap_ext. intros x. f_equal.
  unfold maturity_rate, activation_energy.
  destruct b; cbn [fsub fopp fadd np_maximum fmul];
    rewrite !fdiv_fin by lra; reflexivity.
Qed.

Lemma maturity_rate_at_20 (b : bool) : maturity_rate b 20 = 1.
Proof.
  unfold maturity_rate.
  replace (1 / 293 - 1 / (273 + 20)) with 0 by lra.
  now rewrite Rmult_0_r, exp_0.
Qed.

(** C4.  [Concrete2023.get_t_T] raises the temperature exception, whatever
    the age and before anything is computed from it, exactly when the
    temperature is outside (0, 80]: at every finite temperature [T <= 0] or
    [T > 80] and at NaN and the infinities; at every [0 < T <= 80] it
    returns the age times the maturity rate.  So 0 and 80.5 fail, and 0.001
    and 80.0 return a finite value for a finite age. *)
Theorem C4_temperature_guard (t : num) (b : bool) :
  (forall T : R, T <= 0 \/ 80 < T ->
     Concrete2023.get_t_T t (Fin T) b = Raise temperature_error)
  /\ Concrete2023.get_t_T t NaN b = Raise temperature_error
  /\ Concrete2023.get_t_T t PInf b = Raise temperature_error
  /\ Concrete2023.get_t_T t NInf b = Raise temperature_error
  /\ (forall T : R, 0 < T <= 80 ->
        Concrete2023.get_t_T t (Fin T) b
        = Ok (nmap (fun x => x * Fin (maturity_rate b T))%fl t))
  /\ Concrete2023.get_t_T t (Fin 0) b = Raise temperature_error
  /\ Concrete2023.get_t_T t (Fin 80.5) b = Raise temperature_error
  /\ (forall a : R,
        Concrete2023.get_t_T (Scalar (Fin a)) (Fin 0.001) b
        = Ok (Scalar (Fin (a * maturity_rate b 0.001))))
  /\ (forall a : R,
        Concrete2023.get_t_T (Scalar (Fin a)) (Fin 80) b
        = Ok (Scalar (Fin (a * maturity_rate b 80)))).
Proof.
  assert (Hout : forall T : R, T <= 0 \/ 80 < T ->
            Concrete2023.get_t_T t (Fin T) b = Raise temperature_error).
  { intros T HT. apply get_t_T_2023_out_of_range. cbn [flt fle].
    destruct HT as [HT|HT].
    - now rewrite Rltb_false.
    - rewrite Rleb_false by assumption. apply andb_false_r. }
  repeat split; try reflexivity.
  - exact Hout.
  - intros T HT. now apply get_t_T_2023_in_range.
  - apply Hout. lra.
  - apply Hout. lra.
  - intros a. now rewrite get_t_T_2023_in_range by lra.
  - intros a. now rewrite get_t_T_2023_in_range by lra.
Qed.

Lemma C4_temperature_guard_witness :
  Concrete2023.get_t_T (Scalar (Fin 28)) (Fin 81) true
    = Raise temperature_error
  /\ Concrete2023.get_t_T (Scalar (Fin 28)) (Fin 5) true
     = Ok (nmap (fun x => x * Fin (maturity_rate true 5))%fl
                (Scalar (Fin 28))).
Proof.
  destruct (C4_temperature_guard (Scalar (Fin 28)) true)
    as (Hout & _ & _ & _ & Hin & _).
  split; [apply Hout; right; lra | apply Hin; lra].
Defined.

(** C10.  At 20 degrees the 2023 temperature-adjusted age is the age itself,
    with and without the linear activation energy, for a scalar age and for
    an array of ages. *)
Theorem C10_equivalent_age_at_20_degrees (t : num) (b : bool) :
  Concrete2023.get_t_T t (Fin 20) b = Ok t.
Proof.
  rewrite get_t_T_2023_in_range by lra. f_equal.
  rewrite maturity_rate_at_20.
  rewrite (nmap_ext _ (fun x => x)) by apply fmul_one_r.
  apply nmap_id.
Qed.

(** *** The 2004 sum over intervals *)

(** With the default [use_linear_activation_energy=True] the call never
    returns in the module as it is: after the checks of [T_dt] it reads the
    unbound name [T]. *)
Lemma get_t_T_2004_default_raises (dt T_dt : list float) :
  Concrete2004.get_t_T module_globals dt T_dt true = Raise ValueError
  \/ Concrete2004.get_t_T module_globals dt T_dt true = Raise temperature_error
  \/ Concrete2004.get_t_T module_globals dt T_dt true = Raise (NameError "T").
Proof.
  unfold Concrete2004.get_t_T.
  destruct T_dt as [|x r]; [left; reflexivity|].
  cbn [py_min py_max rbind].
  destruct (_ <=? Fin 0)%fl; cbn [rbind].
  - right; left; reflexivity.
  - destruct (Fin 80 <? _)%fl; cbn [rbind].
    + right; left; reflexivity.
    + right; right; reflexivity.
Qed.

Lemma fold_min_in (r : list R) (x : R) :
  exists m, fold_left (fun m y => if (y <? m)%fl then y else m)
                      (map Fin r) (Fin x) = Fin m
            /\ In m (x :: r).
Proof.
  revert x. induction r as [|y r IH]; intros x.
  - exists x. simpl. auto.
  - cbn [map fold_left]. destruct (Fin y <? Fin x)%fl.
    + destruct (IH y) as [m [Hm Hin]]. exists m. split; [assumption|].
      right. assumption.
    + destruct (IH x) as [m [Hm Hin]]. exists m. split; [assumption|].
      destruct Hin as [->|Hin]; [left; reflexivity | right; right; assumption].
Qed.

Lemma fold_max_in (r : list R) (x : R) :
  exists m, fold_left (fun m y => if (m <? y)%fl then y else m)
                      (map Fin r) (Fin x) = Fin m
            /\ In m (x :: r).
Proof.
  revert x. induction r as [|y r IH]; intros x.
  - exists x. simpl. auto.
  - cbn [map fold_left]. destruct (Fin x <? Fin y)%fl.
    + destruct (IH y) as [m [Hm Hin]]. exists m. split; [assumption|].
      right. assumption.
    + destruct (IH x) as [m [Hm Hin]]. exists m. split; [assumption|].
      destruct Hin as [->|Hin]; [left; reflexivity | right; right; assumption].
Qed.

Lemma py_min_in (T : list R) :
  T <> [] -> exists m, py_min (map Fin T) = Ok (Fin m) /\ In m T.
Proof.
  destruct T as [|x r]; [congruence | intros _].
  destruct (fold_min_in r x) as [m [Hm Hin]].
  exists m. cbn [map py_min]. now rewrite Hm.
Qed.

Lemma py_max_in (T : list R) :
  T <> [] -> exists m, py_max (map Fin T) = Ok (Fin m) /\ In m T.
Proof.
  destruct T as [|x r]; [congruence | intros _].
  destruct (fold_max_in r x) as [m [Hm Hin]].
  exists m. cbn [map py_max]. now rewrite Hm.
Qed.

Lemma np_multiply_same_length (xs ys : list float) :
  List.length xs = List.length ys ->
  np_multiply xs ys = Ok (map (fun p => fst p * snd p)%fl (combine xs ys)).
Proof.
  intros H.
  destruct xs as [|x [|x' xs]], ys as [|y [|y' ys]];
    try discriminate H; try reflexivity.
  unfold np_multiply. rewrite H. now rewrite Nat.eqb_refl.
Qed.

Lemma py_sum_fin (l : list R) (acc : R) :
  fold_left fadd (map Fin l) (Fin acc) = Fin (fold_left Rplus l acc).
Proof.
  revert acc. induction l as [|x l IH]; intros acc; [reflexivity|].
  cbn [map fold_left fadd]. apply IH.
Qed.

(** The contributions of the intervals for one activation energy [E]. *)
Lemma interval_terms_fin (E : R) (dt T : list R) :
  List.length dt = List.length T ->
  Forall (fun x => 0 < x <= 80) T ->
  map (fun p => fst p * snd p)%fl
      (combine (map Fin dt)
         (map (fun T_i =>
                 np_exp (Fin E / Fin 8.314
                         * (Fin 1 / Fin 293 - Fin 1 / (Fin 273 + T_i)))%fl)
              (map Fin T)))
  = map Fin (map (fun p => fst p
                           * exp (E / 8.314 * (1 / 293 - 1 / (273 + snd p))))
                 (combine dt T)).
Proof.
  revert T. induction dt as [|d dt IH]; intros [|y T] Hlen Hall;
    try discriminate Hlen; [reflexivity|].
  inversion Hall as [|? ? [Hy0 Hy80] Hall']; subst.
  cbn [map combine fst snd]. f_equal.
  - cbn [fadd]. rewrite !fdiv_fin by lra. reflexivity.
  - apply IH; [now injection Hlen | assumption].
Qed.

Lemma temperatures_pass_the_check (T : list R) :
  T <> [] ->
  Forall (fun x => 0 < x <= 80) T ->
  exists lo hi,
    py_min (map Fin T) = Ok (Fin lo) /\ py_max (map Fin T) = Ok (Fin hi)
    /\ 0 < lo /\ hi <= 80.
Proof.
  intros Hne Hall.
  destruct (py_min_in T Hne) as [lo [Hmin Hlo]].
  destruct (py_max_in T Hne) as [hi [Hmax Hhi]].
  rewrite Forall_forall in Hall.
  exists lo, hi. repeat split; try assumption.
  - now apply Hall.
  - now apply Hall.
Qed.

(** Without the linear correction the 2004 function is the sum of the
    claim, with the constant energy 33500. *)
Lemma get_t_T_2004_constant_energy (g : namespace) (dt T : list R) :
  List.length dt = List.length T ->
  T <> [] ->
  Forall (fun x => 0 < x <= 80) T ->
  Concrete2004.get_t_T g (map Fin dt) (map Fin T) false
  = Ok (Fin (Rsum (map (fun p => fst p * maturity_rate false (snd p))
                       (combine dt T)))).
Proof.
  intros Hlen Hne Hall.
  unfold Concrete2004.get_t_T.
  destruct (temperatures_pass_the_check T Hne Hall)
    as (lo & hi & -> & -> & Hlo & Hhi).
  cbn [rbind fle flt]. rewrite Rleb_false, Rltb_false by lra. cbn [rbind].
  rewrite np_multiply_same_length by (now rewrite !length_map).
  cbn [rbind]. f_equal.
  rewrite interval_terms_fin by assumption.
  unfold py_sum, Rsum. apply py_sum_fin.
Qed.

(** With a global [T] bound to a float, the linear correction is computed
    once from that global and used for every interval. *)
Lemma get_t_T_2004_outer_T (g : namespace) (T0 : R) (dt T : list R) :
  List.length dt = List.length T ->
  T <> [] ->
  Forall (fun x => 0 < x <= 80) T ->
  Concrete2004.get_t_T (("T", PyFloat (Fin T0)) :: g)
                       (map Fin dt) (map Fin T) true
  = Ok (Fin (Rsum (map (fun p =>
                          fst p
                          * exp (activation_energy true T0 / 8.314
                                 * (1 / 293 - 1 / (273 + snd p))))
                       (combine dt T)))).
Proof.
  intros Hlen Hne Hall.
  unfold Concrete2004.get_t_T.
  destruct (temperatures_pass_the_check T Hne Hall)
    as (lo & hi & -> & -> & Hlo & Hhi).
  cbn [rbind fle flt]. rewrite Rleb_false, Rltb_false by lra. cbn [rbind].
  unfold load_global.
  cbn [lookup String.eqb Ascii.eqb Bool.eqb rbind as_float
       fsub fopp fadd fmul np_maximum].
  rewrite np_multiply_same_length by (now rewrite !length_map).
  cbn [rbind]. f_equal.
  rewrite interval_terms_fin by assumption.
  unfold py_sum, Rsum. apply py_sum_fin.
Qed.

(** C6.  The claim takes the activation energy of each interval from the
    temperature of that interval.  [Concrete2004.get_t_T] computes it from
    the name [T], which the function does not define: for one day at 10
    degrees and one at 30 the default call raises [NameError], and no
    default call returns a value. *)
Theorem C6_2004_sum_reads_unbound_T :
  Concrete2004.get_t_T module_globals [Fin 1; Fin 1] [Fin 10; Fin 30] true
    = Raise (NameError "T")
  /\ (forall dt T_dt : list float,
        Concrete2004.get_t_T module_globals dt T_dt true = Raise ValueError
        \/ Concrete2004.get_t_T module_globals dt T_dt true
           = Raise temperature_error
        \/ Concrete2004.get_t_T module_globals dt T_dt true
           = Raise (NameError "T")).
Proof.
  split; [|apply get_t_T_2004_default_raises].
  unfold Concrete2004.get_t_T.
  cbn [py_min py_max fold_left flt rbind].
  rewrite (Rltb_false 30 10) by lra. cbn [fle rbind].
  rewrite (Rleb_false 10 0) by lra.
  rewrite (Rltb_true 10 30) by lra. cbn [flt rbind].
  rewrite (Rltb_false 80 30) by lra.
  reflexivity.
Qed.

(** ** Reads do not change the object *)

Section Frame.
Context {S : Type}.

Lemma reads_only_ret {A : Type} (a : A) : reads_only (S:=S) (ret a).
Proof. intros s. reflexivity. Qed.

Lemma reads_only_attr {A : Type} (field : S -> A) : reads_only (attr field).
Proof. intros s. reflexivity. Qed.

Lemma reads_only_lift {A : Type} (c : result A) : reads_only (S:=S) (lift c).
Proof. intros s. reflexivity. Qed.

Lemma reads_only_bind {A B : Type} (c : M S A) (k : A -> M S B) :
  reads_only c -> (forall a, reads_only (k a)) -> reads_only (bind c k).
Proof.
  intros Hc Hk s. unfold state_after, bind.
  specialize (Hc s). unfold state_after in Hc.
  destruct (c s) as [[a|e] s']; simpl in Hc; subst s'.
  - apply Hk.
  - reflexivity.
Qed.

End Frame.

(** A getter made of attribute reads, calls and other such getters. *)
Ltac frame := repeat (intros; first
  [ apply reads_only_bind | apply reads_only_ret
  | apply reads_only_attr | apply reads_only_lift ]).

Lemma f_ck_reads_only : reads_only Concrete2023.f_ck.
Proof. unfold Concrete2023.f_ck. frame. Qed.

Lemma f_cm_reads_only : reads_only Concrete2023.f_cm.
Proof.
  unfold Concrete2023.f_cm.
  apply reads_only_bind; [apply f_ck_reads_only | frame].
Qed.

Lemma E_cm_reads_only : reads_only Concrete2023.E_cm.
Proof.
  unfold Concrete2023.E_cm.
  apply reads_only_bind; [apply f_ck_reads_only | frame].
Qed.

Lemma s_C_reads_only : reads_only Concrete2023.s_C.
Proof.
  unfold Concrete2023.s_C.
  apply reads_only_bind; [apply f_ck_reads_only | frame].
Qed.

Lemma t_T_reads_only : reads_only Concrete2023.t_T.
Proof. unfold Concrete2023.t_T. frame. Qed.

Lemma beta_cc_t_reads_only : reads_only Concrete2023.beta_cc_t.
Proof.
  unfold Concrete2023.beta_cc_t.
  apply reads_only_bind; [apply s_C_reads_only | intros sc].
  apply reads_only_bind; [apply t_T_reads_only | frame].
Qed.

Lemma f_cm_t_reads_only : reads_only Concrete2023.f_cm_t.
Proof.
  unfold Concrete2023.f_cm_t.
  apply reads_only_bind; [apply beta_cc_t_reads_only | intros b].
  apply reads_only_bind; [apply f_cm_reads_only | frame].
Qed.

Lemma E_cm_t_reads_only : reads_only Concrete2023.E_cm_t.
Proof.
  unfold Concrete2023.E_cm_t.
  apply reads_only_bind; [apply beta_cc_t_reads_only | intros b].
  apply reads_only_bind; [apply E_cm_reads_only | frame].
Qed.

Lemma f_ck_t_reads_only : reads_only Concrete2023.f_ck_t.
Proof.
  unfold Concrete2023.f_ck_t.
  apply reads_only_bind; [apply f_cm_t_reads_only | frame].
Qed.

Lemma scalar_reads_only (c : M Concrete2023.obj float) :
  reads_only c -> reads_only (Session.scalar c).
Proof.
  intros Hc. unfold Session.scalar.
  apply reads_only_bind; [assumption | frame].
Qed.

Lemma read_reads_only (p : Session.property) : reads_only (Session.read p).
Proof.
  destruct p; cbn [Session.read].
  - apply scalar_reads_only, f_ck_reads_only.
  - apply scalar_reads_only, f_cm_reads_only.
  - apply scalar_reads_only, E_cm_reads_only.
  - apply scalar_reads_only, s_C_reads_only.
  - apply beta_cc_t_reads_only.
  - apply f_cm_t_reads_only.
  - apply E_cm_t_reads_only.
  - apply f_ck_t_reads_only.
  - apply t_T_reads_only.
Qed.

(** The object after a history is the object after its assignments alone. *)
Lemma run_state (history : list Session.action) (o : Concrete2023.obj) :
  fst (Session.run history o)
  = Session.assign_all (Session.assignments history) o.
Proof.
  revert o. induction history as [|[a|p] rest IH]; intros o.
  - reflexivity.
  - cbn [Session.run Session.assignments]. apply IH.
  - cbn [Session.run Session.assignments].
    pose proof (read_reads_only p o) as Hp. unfold state_after in Hp.
    destruct (Session.read p o) as [v o']. simpl in Hp. subst o'.
    specialize (IH o).
    destruct (Session.run rest o) as [final values]. exact IH.
Qed.

(** C9.  Reading a property of a [Concrete2023] object returns the object
    unchanged, so after any history of assignments and reads the object is
    the one its assignments alone produce, and a read gives the value the
    getter computes from those inputs; two objects whose assignments lead to
    the same inputs give the same value, whatever reads came in between. *)
Theorem C9_reads_leave_the_inputs_unchanged :
  (forall (p : Session.property) (o : Concrete2023.obj),
     state_after (Session.read p) o = o)
  /\ (forall (history : list Session.action) (o : Concrete2023.obj)
             (p : Session.property),
        value_of (Session.read p) (fst (Session.run history o))
        = value_of (Session.read p)
            (Session.assign_all (Session.assignments history) o))
  /\ (forall (h1 h2 : list Session.action) (o1 o2 : Concrete2023.obj)
             (p : Session.property),
        Session.assign_all (Session.assignments h1) o1
        = Session.assign_all (Session.assignments h2) o2 ->
        value_of (Session.read p) (fst (Session.run h1 o1))
        = value_of (Session.read p) (fst (Session.run h2 o2))).
Proof.
  split; [|split].
  - intros p o. apply read_reads_only.
  - intros history o p. now rewrite run_state.
  - intros h1 h2 o1 o2 p H. now rewrite !run_state, H.
Qed.

Lemma C9_reads_leave_the_inputs_unchanged_witness :
  value_of (Session.read Session.P_f_ck_t)
    (fst (Session.run
            [Session.Read Session.P_E_cm_t;
             Session.Assign (Session.Set_strength_class "C30/37");
             Session.Read Session.P_f_ck]
            (Concrete2023.init_defaults "C50/60" "CN")))
  = value_of (Session.read Session.P_f_ck_t)
      (fst (Session.run
              [Session.Assign (Session.Set_strength_development_class "CN")]
              (Concrete2023.init_defaults "C30/37" "CS"))).
Proof.
  destruct C9_reads_leave_the_inputs_unchanged as (_ & _ & H).
  apply H. reflexivity.
Defined.

(** ** The object the visualizer starts from

    Class C30/37, development class CN, and the defaults of [__init__]: the
    age is the reference age and the temperature 20 degrees, so the
    age-adjusted strengths are the strengths at the reference age. *)

Lemma default_object_strengths :
  let o := Concrete2023.init_defaults "C30/37" "CN" in
  value_of Concrete2023.f_ck o = Ok (Fin 30)
  /\ value_of Concrete2023.t_T o = Ok (Scalar (Fin 28))
  /\ value_of Concrete2023.beta_cc_t o = Ok (Scalar (Fin 1))
  /\ value_of Concrete2023.f_cm_t o = Ok (Scalar (Fin 38))
  /\ value_of Concrete2023.f_ck_t o = Ok (Scalar (Fin 30)).
Proof.
  intros o.
  assert (Hf : value_of Concrete2023.f_ck o = Ok (Fin 30)) by reflexivity.
  assert (Ht : Concrete2023.t_T o = (Ok (Scalar (Fin 28)), o)).
  { unfold Concrete2023.t_T, bind, attr, lift. cbn [o Concrete2023.init_defaults
      Concrete2023.age Concrete2023.curing_temperature].
    rewrite get_t_T_2023_in_range, maturity_rate_at_20 by lra.
    cbn [nmap fmul]. now rewrite Rmult_1_r. }
  assert (Hs : Concrete2023.s_C o = (Ok (Fin 0.5), o)).
  { unfold Concrete2023.s_C, Concrete2023.f_ck, bind, attr, lift.
    cbn [o Concrete2023.init_defaults Concrete2023.strength_class
         Concrete2023.strength_development_class
         Concrete2023.F_CK_DICT dict_get String.eqb Ascii.eqb Bool.eqb].
    unfold Concrete2023.get_sC. cbn [fle flt].
    now rewrite Rleb_true by lra. }
  assert (Hb : Concrete2023.beta_cc_t o = (Ok (Scalar (Fin 1)), o)).
  { unfold Concrete2023.beta_cc_t, bind. rewrite Hs, Ht.
    unfold attr, lift. cbn [o Concrete2023.init_defaults Concrete2023.t_ref].
    now rewrite betacc_2023_at_reference by lra. }
  assert (Hm : Concrete2023.f_cm_t o = (Ok (Scalar (Fin 38)), o)).
  { unfold Concrete2023.f_cm_t, bind. rewrite Hb.
    unfold Concrete2023.f_cm, Concrete2023.f_ck, bind, attr, lift, ret.
    cbn [o Concrete2023.init_defaults Concrete2023.strength_class
         Concrete2023.F_CK_DICT dict_get String.eqb Ascii.eqb Bool.eqb].
    cbn [Concrete2023.get_fcm_t Concrete2023.get_fcm nmap fadd fmul].
    now replace (1 * (30 + 8)) with 38 by lra. }
  repeat split.
  - unfold value_of. now rewrite Ht.
  - unfold value_of. now rewrite Hb.
  - unfold value_of. now rewrite Hm.
  - unfold value_of, Concrete2023.f_ck_t, bind, ret. rewrite Hm.
    cbn [fst Concrete2023.get_fck_t nmap fsub fopp fadd].
    now replace (38 + - (8)) with 30 by lra.
Qed.

(** * The tables and the reference-age properties *)

Lemma dict_get_in {V : Type} (d : list (string * V)) (key : string) (v : V) :
  dict_get d key = Ok v -> In (key, v) d.
Proof.
  induction d as [|[k w] rest IH]; simpl; [discriminate|].
  destruct (String.eqb k key) eqn:Hk.
  - apply String.eqb_eq in Hk. intros [= ->]. left. now subst.
  - intros H. right. now apply IH.
Qed.

Lemma dict_get_missing {V : Type} (d : list (string * V)) (key : string) :
  ~ In key (keys d) -> dict_get d key = Raise (KeyError key).
Proof.
  induction d as [|[k w] rest IH]; simpl; [reflexivity|].
  intros H. destruct (String.eqb k key) eqn:Hk.
  - apply String.eqb_eq in Hk. exfalso. apply H. now left.
  - apply IH. intros Hin. apply H. now right.
Qed.

Lemma dict_get_present {V : Type} (d : list (string * V)) (key : string) :
  In key (keys d) -> exists v, dict_get d key = Ok v.
Proof.
  induction d as [|[k w] rest IH]; simpl; [contradiction|].
  intros H. destruct (String.eqb k key) eqn:Hk; [eauto|].
  apply IH. destruct H as [H|H]; [|assumption].
  apply String.eqb_neq in Hk. contradiction.
Qed.

(** Every strength of the 2023 table is a finite value from 12 to 100. *)
Lemma f_ck_2023_range (c : string) (v : float) :
  dict_get Concrete2023.F_CK_DICT c = Ok v ->
  exists x, v = Fin x /\ 12 <= x <= 100.
Proof.
  intros H. apply dict_get_in in H. simpl in H.
  repeat (destruct H as [H|H];
          [injection H as _ <-; eexists; split; [reflexivity | lra]|]).
  contradiction.
Qed.

(** X1.  The 2023 table of strength classes extends the 2004 table: a class
    of the 2004 table has the same characteristic strength in both, a value
    from 12 to 90 MPa, and C100/115 is a key of the 2023 table only. *)
Theorem X1_table_2023_extends_2004 (c : string) (v : float) :
  dict_get Concrete2004.F_CK_DICT c = Ok v ->
  dict_get Concrete2023.F_CK_DICT c = Ok v
  /\ (exists x, v = Fin x /\ 12 <= x <= 90)
  /\ dict_get Concrete2004.F_CK_DICT "C100/115" = Raise (KeyError "C100/115")
  /\ dict_get Concrete2023.F_CK_DICT "C100/115" = Ok (Fin 100).
Proof.
  intros H. apply dict_get_in in H. simpl in H.
  repeat (destruct H as [H|H];
          [injection H as <- <-;
           repeat split; try reflexivity; eexists; split; [reflexivity | lra]|]).
  contradiction.
Qed.

Lemma X1_table_2023_extends_2004_witness :
  dict_get Concrete2023.F_CK_DICT "C45/55" = Ok (Fin 45).
Proof.
  apply (X1_table_2023_extends_2004 "C45/55" (Fin 45)). reflexivity.
Defined.

(** *** The development coefficient of the 2023 table *)

Lemma get_sC_known (x : float) (c : string) :
  In c (keys Concrete2023.S_C_DICT) ->
  exists v, Concrete2023.get_sC x c = Ok (Fin v) /\ 0.1 <= v <= 0.6.
Proof.
  intros H. simpl in H. unfold Concrete2023.get_sC.
  destruct H as [<-|[<-|[<-|[]]]];
    destruct (x <=? Fin 35)%fl; [| destruct (x <? Fin 60)%fl | | destruct (x <? Fin 60)%fl | | destruct (x <? Fin 60)%fl];
    cbn; eexists; (split; [reflexivity | lra]).
Qed.

(** X2.  [get_sC] selects the column by the characteristic strength alone:
    the first for [f_ck <= 35], the second for [35 < f_ck < 60], the third
    from 60 on (and for NaN, which fails both comparisons).  For each of the
    classes CS, CN and CR the coefficient does not increase with the
    strength, and it lies between 0.1 and 0.6. *)
Theorem X2_get_sC_bins (c : string) (row : list float) (x y : R) :
  dict_get Concrete2023.S_C_DICT c = Ok row ->
  Concrete2023.get_sC (Fin x) c
    = list_get row (if Rle_dec x 35 then 0 else if Rlt_dec x 60 then 1 else 2)
  /\ Concrete2023.get_sC NaN c = list_get row 2
  /\ (x <= y ->
      exists u v,
        Concrete2023.get_sC (Fin x) c = Ok (Fin u)
        /\ Concrete2023.get_sC (Fin y) c = Ok (Fin v)
        /\ 0.1 <= v <= u /\ u <= 0.6).
Proof.
  intros Hrow. split; [|split].
  - unfold Concrete2023.get_sC. cbn [fle flt]. unfold Rleb, Rltb.
    rewrite Hrow. destruct (Rle_dec x 35); [reflexivity|].
    destruct (Rlt_dec x 60); reflexivity.
  - unfold Concrete2023.get_sC. cbn [fle flt]. now rewrite Hrow.
  - intros Hxy. apply dict_get_in in Hrow. simpl in Hrow.
    unfold Concrete2023.get_sC. cbn [fle flt]. unfold Rleb, Rltb.
    destruct Hrow as [H|[H|[H|[]]]]; injection H as <- <-;
      destruct (Rle_dec x 35); destruct (Rle_dec y 35); try lra;
      destruct (Rlt_dec x 60); destruct (Rlt_dec y 60); try lra;
      cbn; do 2 eexists; (split; [reflexivity|]); (split; [reflexivity|]); lra.
Qed.

Lemma X2_get_sC_bins_witness :
  Concrete2023.get_sC (Fin 60) "CN"
  = list_get [Fin 0.5; Fin 0.4; Fin 0.3]
      (if Rle_dec 60 35 then 0 else if Rlt_dec 60 60 then 1 else 2)%nat.
Proof.
  apply (X2_get_sC_bins "CN" [Fin 0.5; Fin 0.4; Fin 0.3] 60 60). reflexivity.
Defined.

(** X3.  A development class that is not CS, CN or CR makes [get_sC] raise
    [KeyError] with that class, whatever the strength. *)
Theorem X3_get_sC_unknown_class (f_ck : float) (c : string) :
  ~ In c (keys Concrete2023.S_C_DICT) ->
  Concrete2023.get_sC f_ck c = Raise (KeyError c).
Proof.
  intros H. unfold Concrete2023.get_sC.
  rewrite (dict_get_missing _ _ H).
  destruct (f_ck <=? Fin 35)%fl; [reflexivity|].
  destruct (f_ck <? Fin 60)%fl; reflexivity.
Qed.

Lemma X3_get_sC_unknown_class_witness :
  Concrete2023.get_sC (Fin 30) "N" = Raise (KeyError "N").
Proof.
  apply X3_get_sC_unknown_class. simpl.
  intros [H|[H|[H|[]]]]; discriminate H.
Defined.

(** ** The properties as functions of the inputs *)

Lemma value_of_bind {S A B : Type} (c : M S A) (k : A -> M S B) (s : S) :
  reads_only c ->
  value_of (bind c k) s = let? a := value_of c s in value_of (k a) s.
Proof.
  intros Hc. specialize (Hc s). unfold value_of, state_after, bind in *.
  destruct (c s) as [[a|e] s']; simpl in *; now subst.
Qed.

Section Chain.
Import Concrete2023.
Variable o : obj.

Lemma f_ck_value :
  value_of f_ck o = dict_get F_CK_DICT (strength_class o).
Proof. reflexivity. Qed.

Lemma f_cm_value : value_of f_cm o = rmap get_fcm (value_of f_ck o).
Proof. unfold f_cm. now rewrite value_of_bind by apply f_ck_reads_only. Qed.

Lemma s_C_value :
  value_of s_C o
  = let? x := value_of f_ck o in get_sC x (strength_development_class o).
Proof. unfold s_C. now rewrite value_of_bind by apply f_ck_reads_only. Qed.

Lemma t_T_value :
  value_of t_T o = get_t_T (age o) (curing_temperature o) true.
Proof. reflexivity. Qed.

Lemma beta_cc_t_value :
  value_of beta_cc_t o
  = let? sc := value_of s_C o in
    let? t := value_of t_T o in
    get_betacc_t sc t (t_ref o).
Proof.
  unfold beta_cc_t. rewrite value_of_bind by apply s_C_reads_only.
  destruct (value_of s_C o) as [sc|e]; [|reflexivity]. cbn [rbind].
  now rewrite value_of_bind by apply t_T_reads_only.
Qed.

Lemma f_cm_t_value :
  value_of f_cm_t o
  = let? b := value_of beta_cc_t o in
    let? m := value_of f_cm o in
    Ok (get_fcm_t b m).
Proof.
  unfold f_cm_t. rewrite value_of_bind by apply beta_cc_t_reads_only.
  destruct (value_of beta_cc_t o) as [b|e]; [|reflexivity]. cbn [rbind].
  now rewrite value_of_bind by apply f_cm_reads_only.
Qed.

Lemma E_cm_t_value :
  value_of E_cm_t o
  = let? b := value_of beta_cc_t o in
    let? e := value_of E_cm o in
    Ok (get_Ecm_t b e).
Proof.
  unfold E_cm_t. rewrite value_of_bind by apply beta_cc_t_reads_only.
  destruct (value_of beta_cc_t o) as [b|e]; [|reflexivity]. cbn [rbind].
  now rewrite value_of_bind by apply E_cm_reads_only.
Qed.

Lemma f_ck_t_value :
  value_of f_ck_t o = rmap get_fck_t (value_of f_cm_t o).
Proof. unfold f_ck_t. now rewrite value_of_bind by apply f_cm_t_reads_only. Qed.

End Chain.

Lemma scalar_value (c : M Concrete2023.obj float) (o : Concrete2023.obj) :
  reads_only c ->
  value_of (Session.scalar c) o = rmap Scalar (value_of c o).
Proof. intros Hc. unfold Session.scalar. now rewrite value_of_bind. Qed.

(** ** Errors of the properties *)

(** X4.  When the strength class is not a key of the table, every property
    of a [Concrete2023] object except [t_T] raises [KeyError] with that
    class, whatever the other inputs are (also with a temperature out of
    range: the strength is looked up first). *)
Theorem X4_unknown_strength_class (o : Concrete2023.obj)
    (p : Session.property) :
  ~ In (Concrete2023.strength_class o) (keys Concrete2023.F_CK_DICT) ->
  p <> Session.P_t_T ->
  value_of (Session.read p) o
  = Raise (KeyError (Concrete2023.strength_class o)).
Proof.
  intros Hc Hp.
  assert (Hf : value_of Concrete2023.f_ck o
               = Raise (KeyError (Concrete2023.strength_class o))).
  { rewrite f_ck_value. now apply dict_get_missing. }
  assert (Hs : value_of Concrete2023.s_C o
               = Raise (KeyError (Concrete2023.strength_class o))).
  { now rewrite s_C_value, Hf. }
  assert (Hb : value_of Concrete2023.beta_cc_t o
               = Raise (KeyError (Concrete2023.strength_class o))).
  { now rewrite beta_cc_t_value, Hs. }
  assert (Hm : value_of Concrete2023.f_cm_t o
               = Raise (KeyError (Concrete2023.strength_class o))).
  { now rewrite f_cm_t_value, Hb. }
  destruct p; cbn [Session.read].
  - now rewrite scalar_value, Hf by apply f_ck_reads_only.
  - now rewrite scalar_value, f_cm_value, Hf by apply f_cm_reads_only.
  - now rewrite scalar_value, E_cm_2023_reads_f_ck, Hf
      by apply E_cm_reads_only.
  - now rewrite scalar_value, Hs by apply s_C_reads_only.
  - exact Hb.
  - exact Hm.
  - now rewrite E_cm_t_value, Hb.
  - now rewrite f_ck_t_value, Hm.
  - contradiction.
Qed.

Lemma X4_unknown_strength_class_witness :
  value_of (Session.read Session.P_E_cm_t)
           (Concrete2023.init "C31/38" "CN" (Fin 28) (Scalar (Fin 7)) (Fin 0))
  = Raise (KeyError "C31/38").
Proof.
  apply (X4_unknown_strength_class
           (Concrete2023.init "C31/38" "CN" (Fin 28) (Scalar (Fin 7)) (Fin 0))).
  - simpl. intros H.
    repeat (destruct H as [H|H]; [discriminate H|]). contradiction.
  - discriminate.
Defined.

Lemma f_ck_known (o : Concrete2023.obj) :
  In (Concrete2023.strength_class o) (keys Concrete2023.F_CK_DICT) ->
  exists x, value_of Concrete2023.f_ck o = Ok (Fin x) /\ 12 <= x <= 100.
Proof.
  intros H. rewrite f_ck_value.
  destruct (dict_get_present _ _ H) as [v Hv].
  destruct (f_ck_2023_range _ _ Hv) as [x [-> Hx]]. eauto.
Qed.

Lemma E_cm_known (o : Concrete2023.obj) (x : R) :
  value_of Concrete2023.f_ck o = Ok (Fin x) -> 0 < x ->
  value_of Concrete2023.E_cm o = Ok (Fin (9500 * Rpower x (1 / 3))).
Proof.
  intros Hf Hx. rewrite E_cm_2023_reads_f_ck, Hf. cbn [rbind].
  unfold Concrete2023.get_Ecm. now rewrite py_pow_pos.
Qed.

(** X5.  With a strength class of the table and a development class that is
    not CS, CN or CR, [s_C] and the four age-adjusted properties raise
    [KeyError] with the development class, also when the temperature is out
    of range; [f_ck], [f_cm] and [E_cm] return their values. *)
Theorem X5_unknown_development_class (o : Concrete2023.obj)
    (p : Session.property) :
  In (Concrete2023.strength_class o) (keys Concrete2023.F_CK_DICT) ->
  ~ In (Concrete2023.strength_development_class o)
       (keys Concrete2023.S_C_DICT) ->
  (In p [Session.P_s_C; Session.P_beta_cc_t; Session.P_f_cm_t;
         Session.P_E_cm_t; Session.P_f_ck_t] ->
   value_of (Session.read p) o
   = Raise (KeyError (Concrete2023.strength_development_class o)))
  /\ (In p [Session.P_f_ck; Session.P_f_cm; Session.P_E_cm] ->
      exists v, value_of (Session.read p) o = Ok (Scalar (Fin v))).
Proof.
  intros Hc Hd.
  destruct (f_ck_known o Hc) as [x [Hf Hx]].
  assert (Hs : value_of Concrete2023.s_C o
               = Raise (KeyError (Concrete2023.strength_development_class o))).
  { rewrite s_C_value, Hf. cbn [rbind]. unfold Concrete2023.get_sC. rewrite (dict_get_missing _ _ Hd).
    destruct (_ <=? _)%fl; [reflexivity|].
    destruct (_ <? _)%fl; reflexivity. }
  assert (Hb : value_of Concrete2023.beta_cc_t o
               = Raise (KeyError (Concrete2023.strength_development_class o))).
  { now rewrite beta_cc_t_value, Hs. }
  assert (Hm : value_of Concrete2023.f_cm_t o
               = Raise (KeyError (Concrete2023.strength_development_class o))).
  { now rewrite f_cm_t_value, Hb. }
  split; intros Hp; cbn [In] in Hp.
  - destruct Hp as [<-|[<-|[<-|[<-|[<-|[]]]]]]; cbn [Session.read].
    + now rewrite scalar_value, Hs by apply s_C_reads_only.
    + exact Hb.
    + exact Hm.
    + now rewrite E_cm_t_value, Hb.
    + now rewrite f_ck_t_value, Hm.
  - destruct Hp as [<-|[<-|[<-|[]]]]; cbn [Session.read].
    + rewrite scalar_value, Hf by apply f_ck_reads_only. cbn. eauto.
    + rewrite scalar_value, f_cm_value, Hf by apply f_cm_reads_only.
      cbn. eauto.
    + rewrite scalar_value, (E_cm_known o x) by
        (try apply E_cm_reads_only; try assumption; lra).
      cbn. eauto.
Qed.

Ltac in_keys := simpl; repeat (first [left; reflexivity | right]).
Ltac not_in_keys :=
  simpl; intros H; repeat (destruct H as [H|H]; [discriminate H|]);
  contradiction.

Lemma X5_unknown_development_class_witness :
  value_of (Session.read Session.P_f_ck_t)
           (Concrete2023.init "C30/37" "N" (Fin 28) (Scalar (Fin 7)) (Fin 0))
  = Raise (KeyError "N").
Proof.
  apply (X5_unknown_development_class
           (Concrete2023.init "C30/37" "N" (Fin 28) (Scalar (Fin 7)) (Fin 0))).
  - in_keys.
  - not_in_keys.
  - in_keys.
Defined.

Lemma s_C_known (o : Concrete2023.obj) :
  In (Concrete2023.strength_class o) (keys Concrete2023.F_CK_DICT) ->
  In (Concrete2023.strength_development_class o)
     (keys Concrete2023.S_C_DICT) ->
  exists v, value_of Concrete2023.s_C o = Ok (Fin v) /\ 0.1 <= v <= 0.6.
Proof.
  intros Hc Hd. destruct (f_ck_known o Hc) as [x [Hf Hx]].
  rewrite s_C_value, Hf. cbn [rbind]. now apply get_sC_known.
Qed.

(** X6.  With classes of the tables and a curing temperature outside
    (0, 80], the temperature-adjusted age and the four age-adjusted
    properties raise the temperature exception, whatever the age and the
    reference age. *)
Theorem X6_temperature_out_of_range (o : Concrete2023.obj)
    (p : Session.property) :
  In (Concrete2023.strength_class o) (keys Concrete2023.F_CK_DICT) ->
  In (Concrete2023.strength_development_class o)
     (keys Concrete2023.S_C_DICT) ->
  ((Fin 0 <? Concrete2023.curing_temperature o)
   && (Concrete2023.curing_temperature o <=? Fin 80))%fl = false ->
  In p [Session.P_t_T; Session.P_beta_cc_t; Session.P_f_cm_t;
        Session.P_E_cm_t; Session.P_f_ck_t] ->
  value_of (Session.read p) o = Raise temperature_error.
Proof.
  intros Hc Hd HT Hp.
  destruct (s_C_known o Hc Hd) as [sc [Hs _]].
  assert (Ht : value_of Concrete2023.t_T o = Raise temperature_error).
  { rewrite t_T_value. now apply get_t_T_2023_out_of_range. }
  assert (Hb : value_of Concrete2023.beta_cc_t o = Raise temperature_error).
  { now rewrite beta_cc_t_value, Hs, Ht. }
  assert (Hm : value_of Concrete2023.f_cm_t o = Raise temperature_error).
  { now rewrite f_cm_t_value, Hb. }
  cbn [In] in Hp.
  destruct Hp as [<-|[<-|[<-|[<-|[<-|[]]]]]]; cbn [Session.read].
  - exact Ht.
  - exact Hb.
  - exact Hm.
  - now rewrite E_cm_t_value, Hb.
  - now rewrite f_ck_t_value, Hm.
Qed.

Lemma X6_temperature_out_of_range_witness :
  value_of (Session.read Session.P_f_ck_t)
           (Concrete2023.init "C30/37" "CN" (Fin 28) (Scalar (Fin 7)) (Fin 0))
  = Raise temperature_error.
Proof.
  apply (X6_temperature_out_of_range
           (Concrete2023.init "C30/37" "CN" (Fin 28) (Scalar (Fin 7)) (Fin 0))).
  - in_keys.
  - in_keys.
  - cbn [Concrete2023.curing_temperature flt]. now rewrite Rltb_false by lra.
  - in_keys.
Defined.

Lemma same_shape_nmap (f : float -> float) (n : num) :
  same_shape (nmap f n) n.
Proof. destruct n; simpl; [exact I | apply length_map]. Qed.

Lemma same_shape_trans (a b c : num) :
  same_shape a b -> same_shape b c -> same_shape a c.
Proof.
  destruct a, b, c; simpl; try tauto. intros -> ->. reflexivity.
Qed.

Lemma get_t_T_2023_shape (t v : num) (T : float) (b : bool) :
  Concrete2023.get_t_T t T b = Ok v -> same_shape v t.
Proof.
  unfold Concrete2023.get_t_T. destruct (negb _); [discriminate|].
  destruct (py_div _ _); [|discriminate]. cbn [rbind].
  intros [= <-]. apply same_shape_nmap.
Qed.

Lemma get_betacc_t_2023_shape (s r : float) (t v : num) :
  Concrete2023.get_betacc_t s t r = Ok v -> same_shape v t.
Proof.
  unfold Concrete2023.get_betacc_t.
  destruct (py_div _ _); [|discriminate]. cbn [rbind].
  intros [= <-].
  eapply same_shape_trans; apply same_shape_nmap.
Qed.

(** X7.  With classes of the tables, a temperature in (0, 80] and a finite
    reference age other than zero, every property of a [Concrete2023] object
    returns a value, and the temperature-adjusted age and the age-adjusted
    properties have the shape of the age: a scalar for a scalar age, an
    array of the same length for an array of ages. *)
Theorem X7_properties_return (o : Concrete2023.obj) (T r : R)
    (p : Session.property) :
  In (Concrete2023.strength_class o) (keys Concrete2023.F_CK_DICT) ->
  In (Concrete2023.strength_development_class o)
     (keys Concrete2023.S_C_DICT) ->
  Concrete2023.curing_temperature o = Fin T -> 0 < T <= 80 ->
  Concrete2023.t_ref o = Fin r -> r <> 0 ->
  exists v,
    value_of (Session.read p) o = Ok v
    /\ (In p [Session.P_t_T; Session.P_beta_cc_t; Session.P_f_cm_t;
              Session.P_E_cm_t; Session.P_f_ck_t] ->
        same_shape v (Concrete2023.age o)).
Proof.
  intros Hc Hd HT HTr Hr Hr0.
  destruct (f_ck_known o Hc) as [x [Hf Hx]].
  destruct (s_C_known o Hc Hd) as [sc [Hs _]].
  assert (Hm : value_of Concrete2023.f_cm o = Ok (Fin (x + 8)))
    by now rewrite f_cm_value, Hf.
  assert (He := E_cm_known o x Hf ltac:(lra)).
  assert (Ht : value_of Concrete2023.t_T o
               = Ok (nmap (fun a => a * Fin (maturity_rate true T))%fl
                          (Concrete2023.age o))).
  { rewrite t_T_value, HT. now apply get_t_T_2023_in_range. }
  destruct (betacc_2023_no_exception (Fin sc)
              (nmap (fun a => a * Fin (maturity_rate true T))%fl
                    (Concrete2023.age o)) r Hr0) as [b Hb'].
  assert (Hb : value_of Concrete2023.beta_cc_t o = Ok b)
    by now rewrite beta_cc_t_value, Hs, Ht, Hr.
  assert (Hshape : same_shape b (Concrete2023.age o)).
  { eapply same_shape_trans;
      [eapply get_betacc_t_2023_shape; eassumption | apply same_shape_nmap]. }
  destruct p; cbn [Session.read].
  - rewrite scalar_value, Hf by apply f_ck_reads_only.
    eexists; split; [reflexivity | cbn [In]; intuition discriminate].
  - rewrite scalar_value, Hm by apply f_cm_reads_only.
    eexists; split; [reflexivity | cbn [In]; intuition discriminate].
  - rewrite scalar_value, He by apply E_cm_reads_only.
    eexists; split; [reflexivity | cbn [In]; intuition discriminate].
  - rewrite scalar_value, Hs by apply s_C_reads_only.
    eexists; split; [reflexivity | cbn [In]; intuition discriminate].
  - rewrite Hb. eauto.
  - rewrite f_cm_t_value, Hb, Hm. cbn [rbind].
    eexists; split; [reflexivity | intros _].
    eapply same_shape_trans; [apply same_shape_nmap | exact Hshape].
  - rewrite E_cm_t_value, Hb, He. cbn [rbind].
    eexists; split; [reflexivity | intros _].
    eapply same_shape_trans; [apply same_shape_nmap | exact Hshape].
  - rewrite f_ck_t_value, f_cm_t_value, Hb, Hm. cbn [rbind rmap].
    eexists; split; [reflexivity | intros _].
    eapply same_shape_trans; [apply same_shape_nmap |].
    eapply same_shape_trans; [apply same_shape_nmap | exact Hshape].
  - rewrite Ht. eexists; split; [reflexivity | intros _].
    apply same_shape_nmap.
Qed.

Lemma X7_properties_return_witness :
  exists v,
    value_of (Session.read Session.P_f_ck_t)
             (Concrete2023.init "C30/37" "CN" (Fin 28)
                (Array [Fin 1; Fin 7; Fin 28]) (Fin 5))
    = Ok v
    /\ (In Session.P_f_ck_t
           [Session.P_t_T; Session.P_beta_cc_t; Session.P_f_cm_t;
            Session.P_E_cm_t; Session.P_f_ck_t] ->
        same_shape v (Array [Fin 1; Fin 7; Fin 28])).
Proof.
  apply (X7_properties_return
           (Concrete2023.init "C30/37" "CN" (Fin 28)
              (Array [Fin 1; Fin 7; Fin 28]) (Fin 5)) 5 28).
  - in_keys.
  - in_keys.
  - reflexivity.
  - lra.
  - reflexivity.
  - lra.
Defined.

(** * The strength-development functions *)



(** X9.  From the reference age on the 2023 coefficient is exactly 1: the
    age is clamped to [t_ref], so for every finite [s], every positive
    [t_ref] and every age [t >= t_ref], also an infinite one, the result is
    1.0. *)
Theorem X9_coefficient_is_1_from_reference_age (s r t : R) :
  0 < r -> r <= t ->
  Concrete2023.get_betacc_t (Fin s) (Scalar (Fin t)) (Fin r)
    = Ok (Scalar (Fin 1))
  /\ Concrete2023.get_betacc_t (Fin s) (Scalar PInf) (Fin r)
     = Ok (Scalar (Fin 1)).
Proof.
  intros Hr Ht.
  assert (H1 : Concrete2023.get_betacc_t (Fin s) (Scalar (Fin r)) (Fin r)
               = Ok (Scalar (Fin 1))) by now apply betacc_2023_at_reference.
  split; rewrite <- H1; unfold Concrete2023.get_betacc_t;
    cbn [nmap np_minimum].
  - now rewrite Rmin_right, Rmin_left by lra.
  - now rewrite Rmin_left by lra.
Qed.

Lemma X9_coefficient_is_1_from_reference_age_witness :
  Concrete2023.get_betacc_t (Fin 0.5) (Scalar (Fin 90)) (Fin 28)
  = Ok (Scalar (Fin 1)).
Proof.
  apply (X9_coefficient_is_1_from_reference_age 0.5 28 90); lra.
Defined.



Lemma exp_le_mono (x y : R) : x <= y -> exp x <= exp y.
Proof.
  intros [H|H]; [left; now apply exp_increasing | right; now rewrite H].
Qed.

Lemma exp_le_1 (x : R) : x <= 0 -> exp x <= 1.
Proof. intros H. rewrite <- exp_0. now apply exp_le_mono. Qed.


Lemma exp_gt_1 (x : R) : 0 < x -> 1 < exp x.
Proof. intros H. rewrite <- exp_0. now apply exp_increasing. Qed.



(** X11.  The reference age is not checked: with [t_ref = 0.0] the 2023
    coefficient raises [ZeroDivisionError] (from [28.0/t_ref]) for every
    coefficient and age, and with a negative [t_ref] it returns NaN for every
    age, elementwise. *)
Theorem X11_non_positive_reference_age (s : float) (t : num) (r : R) :
  Concrete2023.get_betacc_t s t (Fin 0) = Raise ZeroDivisionError
  /\ (r < 0 ->
      Concrete2023.get_betacc_t s t (Fin r) = Ok (nmap (fun _ => NaN) t)).
Proof.
  split.
  - unfold Concrete2023.get_betacc_t, py_div.
    now rewrite Reqb_true by reflexivity.
  - intros Hr. unfold Concrete2023.get_betacc_t.
    rewrite py_div_fin by lra. cbn [rbind].
    rewrite np_sqrt_neg.
    2:{ unfold Rdiv. assert (/ r < 0) by now apply Rinv_lt_0_compat. nra. }
    f_equal. destruct t as [x|xs]; cbn [nmap].
    + f_equal. now destruct (s * _)%fl.
    + f_equal. rewrite map_map. apply map_ext. intros a.
      now destruct (s * _)%fl.
Qed.

Lemma X11_non_positive_reference_age_witness :
  Concrete2023.get_betacc_t (Fin 0.5) (Scalar (Fin 7)) (Fin (-28))
  = Ok (nmap (fun _ => NaN) (Scalar (Fin 7))).
Proof.
  apply (X11_non_positive_reference_age (Fin 0.5) (Scalar (Fin 7)) (-28)).
  lra.
Defined.

Lemma Rpower_fraction_bounds (b y : R) :
  0 < b <= 1 -> 0 < y <= 1 -> b <= Rpower b y <= 1.
Proof.
  intros [Hb0 Hb1] [Hy0 Hy1].
  assert (Hln : ln b <= 0).
  { destruct Hb1 as [Hlt|Heq].
    - left. rewrite <- ln_1. now apply ln_increasing.
    - right. rewrite Heq. apply ln_1. }
  unfold Rpower. split.
  - rewrite <- (exp_ln b Hb0) at 1. apply exp_le_mono. nra.
  - apply exp_le_1. nra.
Qed.

(** X12.  Stiffness develops ahead of strength: for a coefficient
    [0 < beta <= 1] and positive reference values, the age-adjusted modulus
    relative to the modulus is at least the age-adjusted mean strength
    relative to the mean strength, and at most 1, in both classes. *)
Theorem X12_stiffness_ahead_of_strength (b f E : R) :
  0 < b <= 1 -> 0 < f -> 0 < E ->
  exists m e e',
    Concrete2023.get_fcm_t (Scalar (Fin b)) (Fin f) = Scalar (Fin m)
    /\ Concrete2023.get_Ecm_t (Scalar (Fin b)) (Fin E) = Scalar (Fin e)
    /\ Concrete2004.get_fcm_t (Fin b) (Fin f) = Fin m
    /\ Concrete2004.get_Ecm_t (Fin b) (Fin E) = Fin e'
    /\ m / f <= e / E <= 1
    /\ m / f <= e' / E <= 1.
Proof.
  intros Hb Hf HE.
  exists (b * f), (Rpower b (1 / 3) * E), (Rpower b 0.3 * E).
  unfold Concrete2023.get_Ecm_t, Concrete2004.get_Ecm_t.
  cbn [Concrete2023.get_fcm_t Concrete2004.get_fcm_t nmap fmul np_power].
  rewrite !Rltb_true by lra. cbn [fmul].
  repeat split; try reflexivity;
    replace (b * f / f) with b by (field; lra);
    try replace (Rpower b (1 / 3) * E / E) with (Rpower b (1 / 3))
      by (field; lra);
    try replace (Rpower b 0.3 * E / E) with (Rpower b 0.3) by (field; lra);
    apply Rpower_fraction_bounds; lra.
Qed.

Lemma X12_stiffness_ahead_of_strength_witness :
  exists m e e',
    Concrete2023.get_fcm_t (Scalar (Fin 0.5)) (Fin 38) = Scalar (Fin m)
    /\ Concrete2023.get_Ecm_t (Scalar (Fin 0.5)) (Fin 30000) = Scalar (Fin e)
    /\ Concrete2004.get_fcm_t (Fin 0.5) (Fin 38) = Fin m
    /\ Concrete2004.get_Ecm_t (Fin 0.5) (Fin 30000) = Fin e'
    /\ m / 38 <= e / 30000 <= 1
    /\ m / 38 <= e' / 30000 <= 1.
Proof. apply (X12_stiffness_ahead_of_strength 0.5 38 30000); lra. Defined.

(** * The maturity clock *)

Lemma arrhenius_difference_sign (T : R) :
  0 < T ->
  (T < 20 -> 1 / 293 - 1 / (273 + T) < 0)
  /\ (20 < T -> 0 < 1 / 293 - 1 / (273 + T)).
Proof.
  intros HT.
  assert (H : 1 / 293 - 1 / (273 + T) = (T - 20) / (293 * (273 + T)))
    by (field; lra).
  rewrite H. split; intros HT20.
  - unfold Rdiv.
    assert (0 < / (293 * (273 + T))) by (apply Rinv_0_lt_compat; nra).
    nra.
  - apply Rdiv_pos; nra.
Qed.

Lemma activation_energy_pos (b : bool) (T : R) :
  33500 <= activation_energy b T.
Proof.
  unfold activation_energy. destruct b; [|lra].
  pose proof (Rmax_r (20 - T) 0). lra.
Qed.





(** *** The checks of the 2004 sum *)

Lemma fold_min_le (r : list R) (x : R) :
  exists m, fold_left (fun m y => if (y <? m)%fl then y else m)
                      (map Fin r) (Fin x) = Fin m
            /\ forall z, In z (x :: r) -> m <= z.
Proof.
  revert x. induction r as [|y r IH]; intros x.
  - exists x. split; [reflexivity|]. intros z [<-|[]]. lra.
  - cbn [map fold_left flt]. unfold Rltb. destruct (Rlt_dec y x) as [Hlt|Hge].
    + destruct (IH y) as [m [Hm Hle]]. exists m. split; [assumption|].
      intros z [<-|Hz]; [|now apply Hle].
      specialize (Hle y (or_introl eq_refl)). lra.
    + destruct (IH x) as [m [Hm Hle]]. exists m. split; [assumption|].
      intros z [<-|[<-|Hz]].
      * apply Hle. now left.
      * specialize (Hle x (or_introl eq_refl)). lra.
      * apply Hle. now right.
Qed.

Lemma fold_max_ge (r : list R) (x : R) :
  exists m, fold_left (fun m y => if (m <? y)%fl then y else m)
                      (map Fin r) (Fin x) = Fin m
            /\ forall z, In z (x :: r) -> z <= m.
Proof.
  revert x. induction r as [|y r IH]; intros x.
  - exists x. split; [reflexivity|]. intros z [<-|[]]. lra.
  - cbn [map fold_left flt]. unfold Rltb. destruct (Rlt_dec x y) as [Hlt|Hge].
    + destruct (IH y) as [m [Hm Hle]]. exists m. split; [assumption|].
      intros z [<-|Hz]; [|now apply Hle].
      specialize (Hle y (or_introl eq_refl)). lra.
    + destruct (IH x) as [m [Hm Hle]]. exists m. split; [assumption|].
      intros z [<-|[<-|Hz]].
      * apply Hle. now left.
      * specialize (Hle x (or_introl eq_refl)). lra.
      * apply Hle. now right.
Qed.

(** X15.  [Concrete2004.get_t_T] checks the temperatures before anything
    else: an empty array of temperatures raises [ValueError] (from [min]),
    and one finite entry at or below 0 or above 80 among finite entries
    raises the temperature exception for the whole call, whatever the
    durations, the flag and the globals. *)
Theorem X15_one_bad_temperature_fails_the_call (g : namespace)
    (dt : list float) (T : list R) (flag : bool) (x : R) :
  Concrete2004.get_t_T g dt [] flag = Raise ValueError
  /\ (In x T -> x <= 0 \/ 80 < x ->
      Concrete2004.get_t_T g dt (map Fin T) flag = Raise temperature_error).
Proof.
  split; [reflexivity|]. intros Hin Hx.
  destruct T as [|y r]; [contradiction|].
  unfold Concrete2004.get_t_T. cbn [map py_min py_max].
  destruct (fold_min_le r y) as [lo [-> Hlo]].
  destruct (fold_max_ge r y) as [hi [-> Hhi]].
  specialize (Hlo x Hin). specialize (Hhi x Hin).
  cbn [rbind fle flt]. unfold Rleb, Rltb.
  destruct (Rle_dec lo 0) as [H0|H0]; [reflexivity|].
  cbn [rbind]. destruct (Rlt_dec 80 hi) as [H80|H80]; [reflexivity|].
  lra.
Qed.

Lemma X15_one_bad_temperature_fails_the_call_witness :
  Concrete2004.get_t_T module_globals [Fin 1; Fin 1; Fin 1]
                       (map Fin [10; 85; 20]) false
  = Raise temperature_error.
Proof.
  apply (X15_one_bad_temperature_fails_the_call
           module_globals [Fin 1; Fin 1; Fin 1] [10; 85; 20] false 85).
  - simpl. right. left. reflexivity.
  - right. lra.
Defined.

Lemma Rsum_scaled (c : R) (l : list R) (acc : R) :
  fold_left Rplus (map (fun d => d * c) l) (acc * c)
  = fold_left Rplus l acc * c.
Proof.
  revert acc. induction l as [|d l IH]; intros acc; [reflexivity|].
  cbn [map fold_left]. rewrite <- IH. f_equal. ring.
Qed.

Lemma combine_repeat_terms (c : R -> R) (T : R) (dt : list R) :
  map (fun p => fst p * c (snd p)) (combine dt (repeat T (List.length dt)))
  = map (fun d => d * c T) dt.
Proof.
  induction dt as [|d dt IH]; [reflexivity|].
  cbn [List.length repeat combine map fst snd]. now rewrite IH.
Qed.

(** X16.  Without the linear correction the 2004 sum over intervals that all
    have the temperature [T] is the 2023 constant-temperature age of the
    total duration: [get_t_T(dt, [T,...,T], False)] of the one class equals
    [get_t_T(sum(dt), T, False)] of the other, for [0 < T <= 80] and at
    least one interval. *)
Theorem X16_sum_at_one_temperature (g : namespace) (dt : list R) (T : R) :
  dt <> [] -> 0 < T <= 80 ->
  exists a,
    Concrete2004.get_t_T g (map Fin dt)
                         (map Fin (repeat T (List.length dt))) false
    = Ok (Fin a)
    /\ Concrete2023.get_t_T (Scalar (Fin (Rsum dt))) (Fin T) false
       = Ok (Scalar (Fin a)).
Proof.
  intros Hne HT.
  rewrite get_t_T_2004_constant_energy.
  - rewrite get_t_T_2023_in_range by assumption. cbn [nmap fmul].
    eexists. split; [reflexivity|]. do 3 f_equal.
    rewrite combine_repeat_terms. unfold Rsum.
    rewrite <- Rsum_scaled. f_equal. ring.
  - now rewrite repeat_length.
  - destruct dt; [congruence | discriminate].
  - apply Forall_forall. intros x Hx. apply repeat_spec in Hx. now subst.
Qed.

Lemma X16_sum_at_one_temperature_witness :
  exists a,
    Concrete2004.get_t_T module_globals (map Fin [1; 2; 4])
                         (map Fin (repeat 5 (List.length [1; 2; 4]))) false
    = Ok (Fin a)
    /\ Concrete2023.get_t_T (Scalar (Fin (Rsum [1; 2; 4]))) (Fin 5) false
       = Ok (Scalar (Fin a)).
Proof.
  apply (X16_sum_at_one_temperature module_globals [1; 2; 4] 5).
  - discriminate.
  - lra.
Defined.

(** X17.  Without the linear correction and with temperatures in (0, 80],
    durations and temperatures of different lengths, neither of length one,
    raise [ValueError] (the arrays do not broadcast); one duration is
    applied to every temperature. *)
Theorem X17_lengths_of_the_arrays (g : namespace) (dt T : list R) (d : R) :
  T <> [] -> Forall (fun x => 0 < x <= 80) T ->
  (List.length dt <> List.length T ->
   List.length dt <> 1%nat -> List.length T <> 1%nat ->
   Concrete2004.get_t_T g (map Fin dt) (map Fin T) false = Raise ValueError)
  /\ Concrete2004.get_t_T g [Fin d] (map Fin T) false
     = Ok (Fin (Rsum (map (fun x => d * maturity_rate false x) T))).
Proof.
  intros Hne Hall.
  destruct (temperatures_pass_the_check T Hne Hall)
    as (lo & hi & Hmin & Hmax & Hlo & Hhi).
  split.
  - intros Hlen Hdt HT.
    unfold Concrete2004.get_t_T. rewrite Hmin, Hmax.
    cbn [rbind fle flt]. rewrite Rleb_false, Rltb_false by lra. cbn [rbind].
    assert (Hmul : forall xs ys : list float,
              List.length xs <> List.length ys ->
              List.length xs <> 1%nat -> List.length ys <> 1%nat ->
              np_multiply xs ys = Raise ValueError).
    { intros xs ys H H1 H2.
      destruct xs as [|x [|x' xs]], ys as [|y [|y' ys]];
        try (exfalso; apply H; reflexivity);
        try (exfalso; apply H1; reflexivity);
        try (exfalso; apply H2; reflexivity);
        try reflexivity.
      unfold np_multiply.
      destruct (Nat.eqb _ _) eqn:E; [|reflexivity].
      apply Nat.eqb_eq in E. contradiction. }
    rewrite Hmul by (now rewrite ?length_map). reflexivity.
  - unfold Concrete2004.get_t_T. rewrite Hmin, Hmax.
    cbn [rbind fle flt]. rewrite Rleb_false, Rltb_false by lra. cbn [rbind].
    cbn [np_multiply rbind]. f_equal.
    rewrite !map_map.
    assert (Hterms :
      map (fun x : R =>
             (Fin d * np_exp (Fin 33500 / Fin 8.314
                              * (Fin 1 / Fin 293 - Fin 1 / (Fin 273 + Fin x))))%fl)
          T
      = map Fin (map (fun x => d * maturity_rate false x) T)).
    { rewrite map_map. apply map_ext_in. intros x Hx.
      rewrite Forall_forall in Hall. specialize (Hall x Hx).
      cbn [fadd]. rewrite !fdiv_fin by lra. reflexivity. }
    rewrite Hterms. unfold py_sum, Rsum. apply py_sum_fin.
Qed.

Lemma X17_lengths_of_the_arrays_witness :
  Concrete2004.get_t_T module_globals (map Fin [1; 2]) (map Fin [10; 20; 30])
                       false
  = Raise ValueError.
Proof.
  apply (X17_lengths_of_the_arrays module_globals [1; 2] [10; 20; 30] 1).
  - discriminate.
  - repeat constructor; lra.
  - discriminate.
  - discriminate.
  - discriminate.
Defined.

(** * The object at and after its reference age *)

Lemma betacc_2023_clamped (s r t : R) :
  0 < r -> r <= t ->
  Concrete2023.get_betacc_t (Fin s) (Scalar (Fin t)) (Fin r)
  = Ok (Scalar (Fin 1)).
Proof.
  intros Hr Ht. rewrite <- (betacc_2023_at_reference s r Hr).
  unfold Concrete2023.get_betacc_t. cbn [nmap np_minimum].
  now rewrite Rmin_right, Rmin_left by lra.
Qed.


Lemma maturity_rate_warm (b : bool) (T : R) :
  20 <= T -> 1 <= maturity_rate b T.
Proof.
  intros HT. unfold maturity_rate.
  pose proof (activation_energy_pos b T) as HE.
  destruct HT as [HT|<-].
  - destruct (arrhenius_difference_sign T ltac:(lra)) as [_ Hwarm].
    left. apply exp_gt_1. apply Rmult_lt_0_compat; [apply Rdiv_pos; lra|].
    now apply Hwarm.
  - right. replace (1 / 293 - 1 / (273 + 20)) with 0 by lra.
    now rewrite Rmult_0_r, exp_0.
Qed.


Lemma Rpower_one (y : R) : Rpower 1 y = 1.
Proof. unfold Rpower. now rewrite ln_1, Rmult_0_r, exp_0. Qed.

(** X18.  An object cured at 20 degrees or more has reached its
    reference-age values from the reference age on: with classes of the
    tables, [20 <= T <= 80] and a finite age [t >= t_ref > 0], the
    coefficient is 1.0 and [f_cm_t], [E_cm_t] and [f_ck_t] are [f_cm],
    [E_cm] and [f_ck]. *)
Theorem X18_reference_values_are_reached (o : Concrete2023.obj)
    (T r t : R) :
  In (Concrete2023.strength_class o) (keys Concrete2023.F_CK_DICT) ->
  In (Concrete2023.strength_development_class o)
     (keys Concrete2023.S_C_DICT) ->
  Concrete2023.curing_temperature o = Fin T -> 20 <= T <= 80 ->
  Concrete2023.t_ref o = Fin r -> 0 < r ->
  Concrete2023.age o = Scalar (Fin t) -> r <= t ->
  value_of Concrete2023.beta_cc_t o = Ok (Scalar (Fin 1))
  /\ value_of Concrete2023.f_cm_t o
     = rmap Scalar (value_of Concrete2023.f_cm o)
  /\ value_of Concrete2023.E_cm_t o
     = rmap Scalar (value_of Concrete2023.E_cm o)
  /\ value_of Concrete2023.f_ck_t o
     = rmap Scalar (value_of Concrete2023.f_ck o).
Proof.
  intros Hc Hd HT HTr Hr Hr0 Ha Hat.
  destruct (f_ck_known o Hc) as [x [Hf Hx]].
  destruct (s_C_known o Hc Hd) as [sc [Hs _]].
  assert (Hm : value_of Concrete2023.f_cm o = Ok (Fin (x + 8)))
    by now rewrite f_cm_value, Hf.
  assert (He := E_cm_known o x Hf ltac:(lra)).
  assert (Hb : value_of Concrete2023.beta_cc_t o = Ok (Scalar (Fin 1))).
  { rewrite beta_cc_t_value, Hs, t_T_value, HT, Ha, Hr.
    rewrite get_t_T_2023_in_range by lra. cbn [rbind nmap fmul].
    apply betacc_2023_clamped; [assumption|].
    pose proof (maturity_rate_warm true T ltac:(lra)). nra. }
  assert (Hmt : value_of Concrete2023.f_cm_t o = Ok (Scalar (Fin (x + 8)))).
  { rewrite f_cm_t_value, Hb, Hm.
    cbn [rbind Concrete2023.get_fcm_t nmap fmul]. now rewrite Rmult_1_l. }
  split; [exact Hb|]. split; [|split].
  - now rewrite Hmt, Hm.
  - rewrite E_cm_t_value, Hb, He.
    cbn [rbind rmap Concrete2023.get_Ecm_t nmap np_power].
    rewrite Rltb_true by lra. cbn [fmul].
    now rewrite Rpower_one, Rmult_1_l.
  - rewrite f_ck_t_value, Hmt, Hf.
    cbn [rbind rmap Concrete2023.get_fck_t nmap fsub fopp fadd].
    do 3 f_equal. ring.
Qed.

Lemma X18_reference_values_are_reached_witness :
  value_of Concrete2023.beta_cc_t
    (Concrete2023.init "C30/37" "CN" (Fin 28) (Scalar (Fin 40)) (Fin 25))
  = Ok (Scalar (Fin 1)).
Proof.
  apply (X18_reference_values_are_reached
           (Concrete2023.init "C30/37" "CN" (Fin 28) (Scalar (Fin 40))
                              (Fin 25)) 25 28 40).
  - in_keys.
  - in_keys.
  - reflexivity.
  - lra.
  - reflexivity.
  - lra.
  - reflexivity.
  - lra.
Defined.



(** * What each property depends on *)

(** X20.  The reference-age properties do not depend on the age, the
    temperature or the reference age: two objects with the same strength
    class have the same [f_ck], [f_cm] and [E_cm] (value or exception); with
    the same development class too, the same [s_C]; and two objects with the
    same age and temperature have the same [t_T], whatever their classes. *)
Theorem X20_inputs_of_each_property (o1 o2 : Concrete2023.obj) :
  (Concrete2023.strength_class o1 = Concrete2023.strength_class o2 ->
   value_of Concrete2023.f_ck o1 = value_of Concrete2023.f_ck o2
   /\ value_of Concrete2023.f_cm o1 = value_of Concrete2023.f_cm o2
   /\ value_of Concrete2023.E_cm o1 = value_of Concrete2023.E_cm o2
   /\ (Concrete2023.strength_development_class o1
       = Concrete2023.strength_development_class o2 ->
       value_of Concrete2023.s_C o1 = value_of Concrete2023.s_C o2))
  /\ (Concrete2023.age o1 = Concrete2023.age o2 ->
      Concrete2023.curing_temperature o1
      = Concrete2023.curing_temperature o2 ->
      value_of Concrete2023.t_T o1 = value_of Concrete2023.t_T o2).
Proof.
  split.
  - intros Hc.
    assert (Hf : value_of Concrete2023.f_ck o1 = value_of Concrete2023.f_ck o2)
      by now rewrite !f_ck_value, Hc.
    repeat split.
    + exact Hf.
    + now rewrite !f_cm_value, Hf.
    + now rewrite !E_cm_2023_reads_f_ck, Hf.
    + intros Hd. now rewrite !s_C_value, Hf, Hd.
  - intros Ha HT. now rewrite !t_T_value, Ha, HT.
Qed.

Lemma X20_inputs_of_each_property_witness :
  value_of Concrete2023.E_cm
    (Concrete2023.init "C30/37" "CN" (Fin 28) (Scalar (Fin 3)) (Fin 5))
  = value_of Concrete2023.E_cm
      (Concrete2023.init "C30/37" "CS" (Fin 56) (Array [Fin 1]) (Fin 95)).
Proof.
  destruct (X20_inputs_of_each_property
              (Concrete2023.init "C30/37" "CN" (Fin 28) (Scalar (Fin 3))
                                 (Fin 5))
              (Concrete2023.init "C30/37" "CS" (Fin 56) (Array [Fin 1])
                                 (Fin 95))) as [H _].
  destruct (H eq_refl) as (_ & _ & HE & _). exact HE.
Defined.

Lemma nmap_nmap (f h : float -> float) (n : num) :
  nmap f (nmap h n) = nmap (fun x => f (h x)) n.
Proof. destruct n; simpl; [reflexivity | now rewrite map_map]. Qed.

(** X21.  An array of ages is evaluated age by age: with classes of the
    tables, a temperature in (0, 80] and a finite reference age other than
    zero, there are functions of one age such that [f_ck_t] and [E_cm_t] of
    the object with the age set to a scalar are the functions at that age,
    and with the age set to an array are the arrays of the functions at its
    entries. *)
Theorem X21_arrays_are_evaluated_elementwise (o : Concrete2023.obj)
    (T r : R) :
  In (Concrete2023.strength_class o) (keys Concrete2023.F_CK_DICT) ->
  In (Concrete2023.strength_development_class o)
     (keys Concrete2023.S_C_DICT) ->
  Concrete2023.curing_temperature o = Fin T -> 0 < T <= 80 ->
  Concrete2023.t_ref o = Fin r -> r <> 0 ->
  exists strength modulus : float -> float,
    forall a : num,
      value_of Concrete2023.f_ck_t (Session.assign (Session.Set_age a) o)
      = Ok (nmap strength a)
      /\ value_of Concrete2023.E_cm_t (Session.assign (Session.Set_age a) o)
         = Ok (nmap modulus a).
Proof.
  intros Hc Hd HT HTr Hr Hr0.
  destruct (f_ck_known o Hc) as [x [Hf Hx]].
  destruct (s_C_known o Hc Hd) as [sc [Hs _]].
  set (beta := fun a : float =>
         np_exp (Fin sc
                 * (Fin 1
                    - np_sqrt (Fin r
                               / np_minimum
                                   (a * Fin (maturity_rate true T)) (Fin r)))
                 * np_sqrt (Fin (28 / r)))%fl).
  exists (fun a => beta a * Fin (x + 8) - Fin 8)%fl,
         (fun a => np_power (beta a) (1 / 3)
                   * Fin (9500 * Rpower x (1 / 3)))%fl.
  intros a.
  set (o' := Session.assign (Session.Set_age a) o).
  assert (Hf' : value_of Concrete2023.f_ck o' = Ok (Fin x))
    by (rewrite f_ck_value in *; exact Hf).
  assert (Hs' : value_of Concrete2023.s_C o' = Ok (Fin sc)).
  { rewrite s_C_value, Hf'. rewrite s_C_value, Hf in Hs. exact Hs. }
  assert (Hm : value_of Concrete2023.f_cm o' = Ok (Fin (x + 8)))
    by now rewrite f_cm_value, Hf'.
  assert (He := E_cm_known o' x Hf' ltac:(lra)).
  assert (Hb : value_of Concrete2023.beta_cc_t o' = Ok (nmap beta a)).
  { rewrite beta_cc_t_value, Hs', t_T_value.
    cbn [o' Session.assign Concrete2023.age Concrete2023.curing_temperature
         Concrete2023.t_ref].
    rewrite HT, Hr, get_t_T_2023_in_range by assumption. cbn [rbind].
    unfold Concrete2023.get_betacc_t. rewrite py_div_fin by assumption.
    cbn [rbind]. now rewrite !nmap_nmap. }
  split.
  - rewrite f_ck_t_value, f_cm_t_value, Hb, Hm.
    cbn [rbind rmap]. unfold Concrete2023.get_fck_t, Concrete2023.get_fcm_t.
    now rewrite !nmap_nmap.
  - rewrite E_cm_t_value, Hb, He.
    cbn [rbind]. unfold Concrete2023.get_Ecm_t. now rewrite nmap_nmap.
Qed.

Lemma X21_arrays_are_evaluated_elementwise_witness :
  exists strength modulus : float -> float,
    forall a : num,
      value_of Concrete2023.f_ck_t
        (Session.assign (Session.Set_age a)
           (Concrete2023.init_defaults "C30/37" "CN"))
      = Ok (nmap strength a)
      /\ value_of Concrete2023.E_cm_t
           (Session.assign (Session.Set_age a)
              (Concrete2023.init_defaults "C30/37" "CN"))
         = Ok (nmap modulus a).
Proof.
  apply (X21_arrays_are_evaluated_elementwise
           (Concrete2023.init_defaults "C30/37" "CN") 20 28).
  - in_keys.
  - in_keys.
  - reflexivity.
  - lra.
  - reflexivity.
  - lra.
Defined.

(** * The visualizer *)

Lemma bind_positional_rest (params : parameters) (args : list pyarg)
    (r : list (string * pyarg) * parameters) :
  bind_positional params args = Ok r -> incl (keys (snd r)) (keys params).
Proof.
  revert params r. induction args as [|a args IH]; intros params r.
  - destruct params; intros H; inversion H; subst; apply incl_refl.
  - destruct params as [|[name d] params]; cbn [bind_positional];
      [discriminate|].
    destruct (bind_positional params args) as [r'|e] eqn:Hr; [|discriminate].
    cbn [rbind]. intros H. inversion H; subst. cbn [snd].
    apply incl_tl. now apply IH.
Qed.

Lemma bind_positional_error (params : parameters) (args : list pyarg)
    (e : exn) :
  bind_positional params args = Raise e -> e = TypeError.
Proof.
  revert params. induction args as [|a args IH]; intros params.
  - destruct params; discriminate.
  - destruct params as [|[name d] params]; cbn [bind_positional].
    + intros H. now inversion H.
    + destruct (bind_positional params args) as [r|e'] eqn:Hr;
        [discriminate|].
      cbn [rbind]. intros H. inversion H; subst. now apply (IH params).
Qed.

Lemma keyword_without_parameter (params : parameters) (args : list pyarg)
    (keywords : list (string * pyarg)) (k : string) :
  In k (keys keywords) -> ~ In k (keys params) ->
  bind_arguments params args keywords = Raise TypeError.
Proof.
  intros Hk Hnot. unfold bind_arguments.
  destruct (bind_positional params args) as [r|e] eqn:Hr.
  - cbn [rbind].
    destruct (forallb _ keywords) eqn:Hall; [|reflexivity].
    exfalso. apply Hnot.
    unfold keys in Hk. apply in_map_iff in Hk. destruct Hk as [kw [<- Hkw]].
    rewrite forallb_forall in Hall. specialize (Hall kw Hkw).
    apply existsb_exists in Hall. destruct Hall as [name [Hname Heq]].
    apply String.eqb_eq in Heq. rewrite Heq.
    now apply (bind_positional_rest _ _ _ Hr).
  - cbn [rbind]. now rewrite (bind_positional_error _ _ _ Hr).
Qed.

(** X22.  [Concrete2004.__init__] has no parameter [age], so every call of
    the constructor with the keyword [age] raises [TypeError]; that is the
    call [CuringTimeVisualizer.__init__] makes.  The same call on
    [Concrete2023] builds the object of class C30/37 and development class
    CN with the reference age 28, the age 28 and the temperature 20, which
    are the initial values of the two dropdowns. *)
Theorem X22_visualizer_needs_the_2023_class (args : list pyarg)
    (keywords : list (string * pyarg)) :
  In "age" (keys keywords) ->
  Concrete2004_new args keywords = Raise TypeError
  /\ Concrete2023_new CuringTimeVisualizer.init_args
                      CuringTimeVisualizer.init_keywords
     = Ok (Concrete2023.init_defaults "C30/37" "CN")
  /\ CuringTimeVisualizer.strength_dropdown_value = Ok "C30/37"
  /\ CuringTimeVisualizer.strength_development_dropdown_value = Ok "CN".
Proof.
  intros Hage. split; [|repeat split; reflexivity].
  unfold Concrete2004_new.
  rewrite (keyword_without_parameter _ _ _ "age" Hage); [reflexivity|].
  simpl. intros [H|[H|[H|[]]]]; discriminate H.
Qed.

Lemma X22_visualizer_needs_the_2023_class_witness :
  Concrete2004_new CuringTimeVisualizer.init_args
                   CuringTimeVisualizer.init_keywords
  = Raise TypeError.
Proof.
  apply (X22_visualizer_needs_the_2023_class
           CuringTimeVisualizer.init_args CuringTimeVisualizer.init_keywords).
  simpl. left. reflexivity.
Defined.

(** *** The sampling grid of [plot_curves] *)

Lemma Int_part_ge (x : R) (k : Z) : IZR k <= x -> (k <= Int_part x)%Z.
Proof.
  intros Hk. destruct (base_Int_part x) as [_ H].
  assert (Hlt : IZR (k - 1) < IZR (Int_part x)) by (rewrite minus_IZR; lra).
  apply lt_IZR in Hlt. lia.
Qed.

Lemma t_min_bounds (T : R) :
  5 <= T <= 20 -> 3 < 3 * exp (4000 / (273 + T) - 13.65) < 9.
Proof.
  intros HT.
  assert (Hq : 4000 / (273 + T) * (273 + T) = 4000) by (field; lra).
  assert (He : 0 < 4000 / (273 + T) - 13.65 < 1) by nra.
  pose proof (exp_gt_1 _ (proj1 He)) as H1.
  pose proof (exp_increasing _ _ (proj2 He)) as H2.
  pose proof exp_le_3. lra.
Qed.

Lemma np_linspace_spec (a b : R) (n : Z) :
  (0 <= n)%Z ->
  exists l,
    CuringTimeVisualizer.np_linspace a b n = Ok l
    /\ List.length l = Z.to_nat n
    /\ (a <= b -> Forall (fun x => a <= x <= b) l)
    /\ ((2 <= n)%Z -> In b l).
Proof.
  intros Hn. unfold CuringTimeVisualizer.np_linspace.
  destruct (n <? 0)%Z eqn:Hneg; [apply Z.ltb_lt in Hneg; lia|].
  eexists. split; [reflexivity|].
  assert (HN : IZR n = INR (Z.to_nat n))
    by (rewrite INR_IZR_INZ, Z2Nat.id by assumption; reflexivity).
  rewrite HN. set (N := Z.to_nat n) in *.
  split; [now rewrite length_map, length_seq|]. split.
  - intros Hab. apply Forall_forall. intros x Hx.
    apply in_map_iff in Hx. destruct Hx as [i [<- Hi]].
    apply in_seq in Hi. destruct Hi as [_ Hi]. simpl in Hi.
    destruct i as [|i].
    + simpl. lra.
    + assert (HiN : INR (S i) <= INR N - 1).
      { replace (INR N - 1) with (INR (N - 1)).
        - apply le_INR. lia.
        - rewrite minus_INR by lia. reflexivity. }
      assert (Hi0 : 0 < INR (S i)) by (apply lt_0_INR; lia).
      set (d := INR N - 1) in *. set (k := INR (S i)) in *.
      assert (Hd : 0 < d) by lra.
      assert (Hu : 0 <= k / d <= 1).
      { split.
        - left. now apply Rdiv_pos.
        - apply Rmult_le_reg_r with d; [assumption|].
          unfold Rdiv. rewrite Rmult_assoc, Rinv_l by lra. lra. }
      replace (a + k * ((b - a) / d)) with (a + k / d * (b - a))
        by (field; lra).
      nra.
  - intros H2. apply in_map_iff. exists (N - 1)%nat. split.
    + assert (HN2 : (2 <= N)%nat) by (unfold N; lia).
      rewrite minus_INR by lia. simpl (INR 1).
      assert (1 < INR N) by (apply lt_1_INR; lia).
      field. lra.
    + apply in_seq. unfold N. lia.
Qed.

Lemma first_true_found (l : list bool) :
  In true l ->
  exists i, CuringTimeVisualizer.first_true l = Some i
            /\ (i < List.length l)%nat /\ nth i l false = true.
Proof.
  induction l as [|[|] l IH]; simpl; intros H.
  - contradiction.
  - exists 0%nat. repeat split. lia.
  - destruct H as [H|H]; [discriminate|].
    destruct (IH H) as [i [-> [Hi Hn]]]. exists (S i).
    repeat split; [simpl; lia | assumption].
Qed.

Lemma bind_lift {S A B : Type} (c : result A) (k : A -> M S B) (a : A)
    (s : S) :
  c = Ok a -> bind (lift c) k s = k a s.
Proof. intros ->. reflexivity. Qed.

Lemma bind_getter {S A B : Type} (c : M S A) (k : A -> M S B) (a : A)
    (s : S) :
  reads_only c -> value_of c s = Ok a -> bind c k s = k a s.
Proof.
  intros Hc Ha. specialize (Hc s). unfold value_of, state_after, bind in *.
  destruct (c s) as [v s']. simpl in *. now subst.
Qed.

(** The curves of an object whose age is an array. *)
Lemma age_adjusted_arrays (o : Concrete2023.obj) (T r : R)
    (ages : list float) :
  In (Concrete2023.strength_class o) (keys Concrete2023.F_CK_DICT) ->
  In (Concrete2023.strength_development_class o)
     (keys Concrete2023.S_C_DICT) ->
  Concrete2023.curing_temperature o = Fin T -> 0 < T <= 80 ->
  Concrete2023.t_ref o = Fin r -> r <> 0 ->
  Concrete2023.age o = Array ages ->
  exists f e fs es,
    value_of Concrete2023.f_ck o = Ok f
    /\ value_of Concrete2023.E_cm o = Ok e
    /\ value_of Concrete2023.E_cm_t o = Ok (Array es)
    /\ value_of Concrete2023.f_ck_t o = Ok (Array fs)
    /\ List.length es = List.length ages
    /\ List.length fs = List.length ages.
Proof.
  intros Hc Hd HT HTr Hr Hr0 Ha.
  destruct (f_ck_known o Hc) as [x [Hf Hx]].
  destruct (s_C_known o Hc Hd) as [sc [Hs _]].
  assert (Hm : value_of Concrete2023.f_cm o = Ok (Fin (x + 8)))
    by now rewrite f_cm_value, Hf.
  assert (He := E_cm_known o x Hf ltac:(lra)).
  exists (Fin x), (Fin (9500 * Rpower x (1 / 3))).
  assert (Hb : exists bs, value_of Concrete2023.beta_cc_t o = Ok (Array bs)
                          /\ List.length bs = List.length ages).
  { rewrite beta_cc_t_value, Hs, t_T_value, HT, Ha, Hr.
    rewrite get_t_T_2023_in_range by assumption. cbn [rbind].
    unfold Concrete2023.get_betacc_t. rewrite py_div_fin by assumption.
    cbn [rbind nmap]. eexists. split; [reflexivity|].
    now rewrite !length_map. }
  destruct Hb as [bs [Hb Hlen]].
  do 2 eexists. split; [exact Hf|]. split; [exact He|].
  rewrite E_cm_t_value, f_ck_t_value, f_cm_t_value, Hb, He, Hm.
  cbn [rbind rmap Concrete2023.get_Ecm_t Concrete2023.get_fcm_t
       Concrete2023.get_fck_t nmap].
  split; [reflexivity|]. split; [reflexivity|].
  now rewrite !length_map.
Qed.

Lemma np_argmax_found (l : list bool) :
  In true l ->
  exists i, CuringTimeVisualizer.np_argmax l = Ok i
            /\ (i < List.length l)%nat /\ nth i l false = true.
Proof.
  intros H. destruct (first_true_found l H) as [i [Hi [Hlt Hn]]].
  exists i. unfold CuringTimeVisualizer.np_argmax. rewrite Hi.
  destruct l; [contradiction | auto].
Qed.

Lemma list_get_nth {V : Type} (l : list V) (i : nat) (d : V) :
  (i < List.length l)%nat -> list_get l i = Ok (nth i l d).
Proof.
  intros Hi. unfold list_get.
  destruct (nth_error l i) as [v|] eqn:Hv.
  - now rewrite (nth_error_nth _ _ d Hv).
  - apply nth_error_None in Hv. lia.
Qed.

(** X23.  For every value the widgets can pass (a strength class and a
    development class of the tables, a temperature from 5 to 20 degrees, an
    age from 0 to 28 days) and an object with a finite reference age other
    than zero, the computations of [plot_curves] raise nothing.  They leave
    the object with the chosen classes, the temperature and the array of
    sampled ages as its age; every sampled age lies between 0.01 and 28
    days; the marker index is within the arrays and marks a sampled age not
    below the chosen age; and the two curves have one value per sampled
    age. *)
Theorem X23_plot_curves_for_the_widgets (o : Concrete2023.obj)
    (strength_class strength_development_class : string) (t T r : R) :
  In strength_class (keys Concrete2023.F_CK_DICT) ->
  In strength_development_class (keys Concrete2023.S_C_DICT) ->
  5 <= T <= 20 -> 0 <= t <= 28 ->
  Concrete2023.t_ref o = Fin r -> r <> 0 ->
  exists c : CuringTimeVisualizer.curves,
    CuringTimeVisualizer.plot_curves strength_class
      strength_development_class t T o
    = (Ok c,
       Concrete2023.init strength_class strength_development_class (Fin r)
         (Array (map Fin (CuringTimeVisualizer.t_list c))) (Fin T))
    /\ Forall (fun x => 0.01 <= x <= 28) (CuringTimeVisualizer.t_list c)
    /\ (CuringTimeVisualizer.idx c
        < List.length (CuringTimeVisualizer.t_list c))%nat
    /\ t <= nth (CuringTimeVisualizer.idx c)
                (CuringTimeVisualizer.t_list c) 0
    /\ CuringTimeVisualizer.marker_age c
       = Fin (nth (CuringTimeVisualizer.idx c)
                  (CuringTimeVisualizer.t_list c) 0)
    /\ same_shape (CuringTimeVisualizer.curve_f_ck_t c)
                  (Array (map Fin (CuringTimeVisualizer.t_list c)))
    /\ same_shape (CuringTimeVisualizer.curve_E_cm_t c)
                  (Array (map Fin (CuringTimeVisualizer.t_list c))).
Proof.
  intros Hc Hd HT Ht Hr Hr0.
  pose proof (t_min_bounds T HT) as Hmin.
  unfold CuringTimeVisualizer.plot_curves.
  rewrite Reqb_false by lra. cbv zeta.
  set (t_min := 3 * exp (4000 / (273 + T) - 13.65)) in *.
  assert (Hn0 : (0 <= CuringTimeVisualizer.floor_divide t_min (28 / 100) + 1)%Z).
  { assert (0 <= Int_part (t_min / (28 / 100)))%Z.
    { apply Int_part_ge.
      replace (t_min / (28 / 100)) with (t_min * (100 / 28)) by (field; lra).
      lra. }
    unfold CuringTimeVisualizer.floor_divide. lia. }
  assert (Hn1 : (2 <= CuringTimeVisualizer.floor_divide (28 - t_min) (28 / 100)
                      + 1)%Z).
  { assert (1 <= Int_part ((28 - t_min) / (28 / 100)))%Z.
    { apply Int_part_ge.
      replace ((28 - t_min) / (28 / 100)) with ((28 - t_min) * (100 / 28))
        by (field; lra).
      lra. }
    unfold CuringTimeVisualizer.floor_divide. lia. }
  destruct (np_linspace_spec 0.01 t_min _ Hn0) as (first & H1 & _ & F1 & _).
  destruct (np_linspace_spec t_min 28 _ (Z.le_trans _ _ _ Z.le_0_2 Hn1))
    as (second & H2 & _ & F2 & L2).
  specialize (F1 ltac:(lra)). specialize (F2 ltac:(lra)).
  specialize (L2 Hn1).
  rewrite (bind_lift _ _ first _ H1). cbv beta.
  rewrite (bind_lift _ _ second _ H2). cbv beta.
  set (ts := first ++ second).
  assert (Hts : Forall (fun x => 0.01 <= x <= 28) ts).
  { apply Forall_app. split.
    - eapply Forall_impl; [|exact F1]. simpl. intros; lra.
    - eapply Forall_impl; [|exact F2]. simpl. intros; lra. }
  assert (Htrue : In true (map (fun x => Rleb t x) ts)).
  { apply in_map_iff. exists 28. split; [apply Rleb_true; lra|].
    apply in_or_app. now right. }
  destruct (np_argmax_found _ Htrue) as (i & Hi & Hlt & Hnth).
  rewrite length_map in Hlt.
  rewrite (bind_lift _ _ i _ Hi). cbv beta.
  unfold bind at 1. unfold CuringTimeVisualizer.assign_inputs at 1.
  rewrite Hr.
  set (o' := Concrete2023.init strength_class strength_development_class
               (Fin r) (Array (map Fin ts)) (Fin T)).
  destruct (age_adjusted_arrays o' T r (map Fin ts))
    as (f & e & fs & es & Hf & He & Hes & Hfs & Les & Lfs);
    try reflexivity; try assumption; try lra.
  rewrite length_map in Les, Lfs.
  rewrite (bind_getter _ _ f o' f_ck_reads_only Hf).
  rewrite (bind_getter _ _ f o' f_ck_reads_only Hf).
  rewrite (bind_getter _ _ e o' E_cm_reads_only He).
  rewrite (bind_getter _ _ (Array es) o' E_cm_t_reads_only Hes).
  rewrite (bind_getter _ _ (Array fs) o' f_ck_t_reads_only Hfs).
  assert (G1 : list_get (map Fin ts) i = Ok (nth i (map Fin ts) NaN))
    by (apply list_get_nth; rewrite length_map; lia).
  assert (G2 : CuringTimeVisualizer.index (Array fs) i = Ok (nth i fs NaN))
    by (apply list_get_nth; lia).
  assert (G3 : CuringTimeVisualizer.index (Array es) i = Ok (nth i es NaN))
    by (apply list_get_nth; lia).
  rewrite (bind_lift _ _ _ _ G1). cbv beta.
  rewrite (bind_lift _ _ _ _ G2). cbv beta.
  rewrite (bind_lift _ _ _ _ G3). cbv beta.
  unfold ret.
  match goal with |- exists c, (Ok ?v, _) = _ /\ _ => exists v end.
  split; [reflexivity|].
  cbn [CuringTimeVisualizer.t_list CuringTimeVisualizer.idx
       CuringTimeVisualizer.marker_age CuringTimeVisualizer.curve_f_ck_t
       CuringTimeVisualizer.curve_E_cm_t same_shape].
  split; [exact Hts|]. split; [exact Hlt|]. split.
  - pose proof (map_nth (fun x => Rleb t x) ts 28 i) as Hm. cbv beta in Hm.
    rewrite (nth_indep _ false (Rleb t 28)) in Hnth
      by (rewrite length_map; lia).
    rewrite Hm in Hnth. unfold Rleb in Hnth.
    destruct (Rle_dec t (nth i ts 28)) as [Hle|]; [|discriminate].
    now rewrite (nth_indep _ 0 28) by lia.
  - split; [|now rewrite !length_map].
    rewrite (nth_indep _ NaN (Fin 0)) by (rewrite length_map; lia).
    apply map_nth.
Qed.

Lemma X23_plot_curves_for_the_widgets_witness :
  exists c : CuringTimeVisualizer.curves,
    CuringTimeVisualizer.plot_curves "C40/50" "CR" 7 10
      (Concrete2023.init_defaults "C30/37" "CN")
    = (Ok c,
       Concrete2023.init "C40/50" "CR" (Fin 28)
         (Array (map Fin (CuringTimeVisualizer.t_list c))) (Fin 10))
    /\ Forall (fun x => 0.01 <= x <= 28) (CuringTimeVisualizer.t_list c)
    /\ (CuringTimeVisualizer.idx c
        < List.length (CuringTimeVisualizer.t_list c))%nat
    /\ 7 <= nth (CuringTimeVisualizer.idx c)
                (CuringTimeVisualizer.t_list c) 0
    /\ CuringTimeVisualizer.marker_age c
       = Fin (nth (CuringTimeVisualizer.idx c)
                  (CuringTimeVisualizer.t_list c) 0)
    /\ same_shape (CuringTimeVisualizer.curve_f_ck_t c)
                  (Array (map Fin (CuringTimeVisualizer.t_list c)))
    /\ same_shape (CuringTimeVisualizer.curve_E_cm_t c)
                  (Array (map Fin (CuringTimeVisualizer.t_list c))).
Proof.
  apply (X23_plot_curves_for_the_widgets
           (Concrete2023.init_defaults "C30/37" "CN") "C40/50" "CR" 7 10 28).
  - in_keys.
  - in_keys.
  - lra.
  - lra.
  - reflexivity.
  - lra.
Defined.



